(** * Railway track fitting analyzer: the condition scorer of [summary.py]

    A shallow embedding of class [RailwayAnalyzer] (src/summary.py) and
    the properties of its scoring rules.

    Layout:
    - [Py]: the Python values the program handles (decoded JSON, the
      exceptions it can raise, truthiness, subscripting, [str.lower]);
    - [PyDatetime]: the part of the [datetime] module the program calls
      (ordinals, subtraction, [strptime] with the format [%Y-%m-%d]);
    - [Effects]: the world the program runs in (the clock read by
      [datetime.now()], the HTTP collaborator, the console) and the
      state and exception monad over it;
    - [RailwayAnalyzer]: the methods of the class, in source order;
    - the theorems. *)

From Stdlib Require Import ZArith List String Ascii Bool Lia.
From Stdlib Require Import Sorting.Permutation.
From Stdlib Require Import DecimalString.
From Stdlib Require Import Floats.SpecFloat.
Import ListNotations.

Set Warnings "-register-all".

Local Open Scope string_scope.
Local Open Scope list_scope.
Local Open Scope Z_scope.

(* ===================================================================== *)
(** * Python values                                                       *)
(* ===================================================================== *)

Module Py.

(** What [response.json()] can return: the decoding of a JSON document.
    A [dict] keeps its keys in insertion order; a well-formed one has no
    key twice.  A [str] is kept as the bytes of its UTF-8 encoding, a
    [float] as the IEEE 754 value it is. *)
Inductive json : Type :=
| JNull
| JBool (b : bool)
| JInt (n : Z)
| JFloat (f : spec_float)
| JStr (s : string)
| JList (l : list json)
| JDict (d : list (string * json)).

(** The exception classes the program can raise.  [KeyError] keeps the
    missing key; the messages of the others are not modelled. *)
Inductive exn : Type :=
| KeyError (key : string)
| TypeError
| ValueError
| AttributeError.

(** [type(e).__name__] *)
Definition exn_name (e : exn) : string :=
  match e with
  | KeyError _ => "KeyError"
  | TypeError => "TypeError"
  | ValueError => "ValueError"
  | AttributeError => "AttributeError"
  end.

(** [bool(v)], as [if not v] tests it. *)
Definition truthy (v : json) : bool :=
  match v with
  | JNull => false
  | JBool b => b
  | JInt n => negb (n =? 0)
  | JFloat f => match f with S754_zero _ => false | _ => true end
  | JStr s => negb (String.eqb s "")
  | JList l => match l with [] => false | _ => true end
  | JDict d => match d with [] => false | _ => true end
  end.

Fixpoint dict_get (d : list (string * json)) (key : string) : option json :=
  match d with
  | [] => None
  | (k, v) :: rest => if String.eqb k key then Some v else dict_get rest key
  end.

(** [v[key]] for a string key. *)
Definition subscript (v : json) (key : string) : exn + json :=
  match v with
  | JDict d =>
      match dict_get d key with
      | Some x => inr x
      | None => inl (KeyError key)
      end
  | _ => inl TypeError
  end.

(** [iter(v)] run to its end. A [str] yields its characters (here its
    bytes, one string each), a [dict] its keys. *)
Definition iterate (v : json) : exn + list json :=
  match v with
  | JList l => inr l
  | JStr s => inr (map (fun c => JStr (String c EmptyString)) (list_ascii_of_string s))
  | JDict d => inr (map (fun kv => JStr (fst kv)) d)
  | _ => inl TypeError
  end.

(** [str.lower] on the letters A to Z. The other bytes stay: no
    character outside ASCII lower-cases to a letter of the three words
    the program compares a status with. *)
Definition lower_char (c : ascii) : ascii :=
  let n := nat_of_ascii c in
  if (Nat.leb 65 n && Nat.leb n 90)%bool then ascii_of_nat (n + 32) else c.

Fixpoint str_lower (s : string) : string :=
  match s with
  | EmptyString => EmptyString
  | String c r => String (lower_char c) (str_lower r)
  end.

(** [v.lower()] *)
Definition lower (v : json) : exn + string :=
  match v with
  | JStr s => inr (str_lower s)
  | _ => inl AttributeError
  end.

(** [s in [w1, w2, ...]] *)
Definition str_in (s : string) (l : list string) : bool :=
  existsb (String.eqb s) l.

(** [str(n)] for an [int]. *)
Definition str_of_int (n : Z) : string :=
  NilZero.string_of_int (Z.to_int n).

(** [s.rstrip(c)] for a one-character [c]. *)
Fixpoint rstrip (c : ascii) (s : string) : string :=
  match s with
  | EmptyString => EmptyString
  | String x r =>
      match rstrip c r with
      | EmptyString => if Ascii.eqb x c then EmptyString else String x EmptyString
      | r' => String x r'
      end
  end.

End Py.

(* ===================================================================== *)
(** * The [datetime] module                                               *)
(* ===================================================================== *)

Module PyDatetime.
Import Py.

(** A naive [datetime]. *)
Record datetime : Type := mk_datetime {
  year : Z; month : Z; day : Z;
  hour : Z; minute : Z; second : Z; microsecond : Z
}.

(** A [timedelta], normalised: [0 <= seconds < 86400] and
    [0 <= microseconds < 1000000]; [td_days] carries the sign. *)
Record timedelta : Type := mk_timedelta {
  td_days : Z; td_seconds : Z; td_microseconds : Z
}.

Definition is_leap (y : Z) : bool :=
  (y mod 4 =? 0) && (negb (y mod 100 =? 0) || (y mod 400 =? 0)).

Definition days_before_year (y : Z) : Z :=
  let p := y - 1 in p * 365 + p / 4 - p / 100 + p / 400.

Definition DAYS_IN_MONTH (m : Z) : Z :=
  match m with
  | 1 => 31 | 2 => 28 | 3 => 31 | 4 => 30 | 5 => 31 | 6 => 30
  | 7 => 31 | 8 => 31 | 9 => 30 | 10 => 31 | 11 => 30 | 12 => 31
  | _ => -1
  end.

Definition DAYS_BEFORE_MONTH (m : Z) : Z :=
  match m with
  | 1 => 0 | 2 => 31 | 3 => 59 | 4 => 90 | 5 => 120 | 6 => 151
  | 7 => 181 | 8 => 212 | 9 => 243 | 10 => 273 | 11 => 304 | 12 => 334
  | _ => -1
  end.

Definition days_in_month (y m : Z) : Z :=
  if (m =? 2) && is_leap y then 29 else DAYS_IN_MONTH m.

Definition days_before_month (y m : Z) : Z :=
  DAYS_BEFORE_MONTH m + (if (m >? 2) && is_leap y then 1 else 0).

Definition ymd2ord (y m d : Z) : Z :=
  days_before_year y + days_before_month y m + d.

(** [dt.toordinal()]: 1 for 0001-01-01. *)
Definition toordinal (dt : datetime) : Z :=
  ymd2ord (year dt) (month dt) (day dt).

(** The constructor [timedelta(days, seconds, microseconds)] carries
    microseconds into seconds and seconds into days with [divmod]. *)
Definition timedelta_of (days seconds microseconds : Z) : timedelta :=
  let s := seconds + microseconds / 1000000 in
  {| td_days := days + s / 86400;
     td_seconds := s mod 86400;
     td_microseconds := microseconds mod 1000000 |}.

(** [a - b] for two naive datetimes. *)
Definition datetime_sub (a b : datetime) : timedelta :=
  let secs1 := second a + minute a * 60 + hour a * 3600 in
  let secs2 := second b + minute b * 60 + hour b * 3600 in
  timedelta_of (toordinal a - toordinal b) (secs1 - secs2)
               (microsecond a - microsecond b).

(** [a < b]: the comparison of the field tuples. *)
Fixpoint lex_ltb (xs ys : list Z) : bool :=
  match xs, ys with
  | x :: xs', y :: ys' => (x <? y) || ((x =? y) && lex_ltb xs' ys')
  | [], _ :: _ => true
  | _, [] => false
  end.

Definition fields (dt : datetime) : list Z :=
  [year dt; month dt; day dt; hour dt; minute dt; second dt; microsecond dt].

Definition datetime_ltb (a b : datetime) : bool :=
  lex_ltb (fields a) (fields b).

(** [max(first, *rest)]: the first of the largest items. *)
Fixpoint max_from (best : datetime) (rest : list datetime) : datetime :=
  match rest with
  | [] => best
  | x :: rest' => max_from (if datetime_ltb best x then x else best) rest'
  end.

(** ** [strptime] with the format [%Y-%m-%d]

    The format compiles to the regular expression
    [(\d\d\d\d)-(1[0-2]|0[1-9]|[1-9])-(3[0-1]|[1-2]\d|0[1-9]|[1-9]| [1-9])],
    matched at the start of the string; alternatives are tried from left
    to right, each parser below listing its matches in that order.
    Digits are the ASCII digits: on a string of ASCII characters the
    model is the library's [strptime]. The library's digit class also
    takes the decimal digits of other scripts, which the model does not
    parse; statements that need the two to agree on every string are
    made of records whose dates are ASCII ([dates_in_ascii]). *)

Definition is_digit (c : ascii) : bool :=
  let n := nat_of_ascii c in (Nat.leb 48 n && Nat.leb n 57)%bool.

Definition digit_val (c : ascii) : Z := Z.of_nat (nat_of_ascii c) - 48.

Definition in_range (lo hi : ascii) (c : ascii) : bool :=
  let n := nat_of_ascii c in
  (Nat.leb (nat_of_ascii lo) n && Nat.leb n (nat_of_ascii hi))%bool.

(** one character of a class, read as a digit (a space reads as nothing) *)
Definition one (p : ascii -> bool) (s : string) : list (Z * string) :=
  match s with
  | String c r => if p c then [(digit_val c, r)] else []
  | EmptyString => []
  end.

(** two characters of two classes, read as a two-digit number *)
Definition two (p q : ascii -> bool) (s : string) : list (Z * string) :=
  match s with
  | String c (String c' r) =>
      if (p c && q c')%bool then [(10 * digit_val c + digit_val c', r)] else []
  | _ => []
  end.

Definition lit (c : ascii) (s : string) : list string :=
  match s with
  | String x r => if Ascii.eqb x c then [r] else []
  | EmptyString => []
  end.

Definition re_Y (s : string) : list (Z * string) :=
  flat_map (fun '(hi, r) => map (fun '(lo, r') => (100 * hi + lo, r'))
                                (two is_digit is_digit r))
           (two is_digit is_digit s).

Definition re_m (s : string) : list (Z * string) :=
  two (in_range "1" "1") (in_range "0" "2") s
  ++ two (in_range "0" "0") (in_range "1" "9") s
  ++ one (in_range "1" "9") s.

Definition re_d (s : string) : list (Z * string) :=
  two (in_range "3" "3") (in_range "0" "1") s
  ++ two (in_range "1" "2") is_digit s
  ++ two (in_range "0" "0") (in_range "1" "9") s
  ++ one (in_range "1" "9") s
  ++ flat_map (one (in_range "1" "9")) (lit " " s).

(** [format_regex.match(s)]: the first way to match, with what is left
    of the string after it. *)
Definition regex_match (s : string) : option (Z * Z * Z * string) :=
  hd_error
    (flat_map (fun '(y, r1) =>
       flat_map (fun r2 =>
         flat_map (fun '(m, r3) =>
           flat_map (fun r4 =>
             map (fun '(d, r5) => (y, m, d, r5)) (re_d r4))
             (lit "-" r3))
           (re_m r2))
         (lit "-" r1))
       (re_Y s)).

(** [datetime.strptime(s, "%Y-%m-%d")] for a [str]: [ValueError] when
    the string does not match, when something is left after the match,
    and when the fields are no date (year 0, 30 February). *)
Definition strptime_str (s : string) : exn + datetime :=
  match regex_match s with
  | Some (y, m, d, EmptyString) =>
      if (1 <=? y) && (d <=? days_in_month y m)
      then inr (mk_datetime y m d 0 0 0 0)
      else inl ValueError
  | _ => inl ValueError
  end.

(** [datetime.strptime(v, "%Y-%m-%d")]: [TypeError] unless [v] is a [str]. *)
Definition strptime (v : json) : exn + datetime :=
  match v with
  | JStr s => strptime_str s
  | _ => inl TypeError
  end.

End PyDatetime.

(* ===================================================================== *)
(** * The world of a run and its monad                                    *)
(* ===================================================================== *)

Module Effects.
Import Py PyDatetime.

(** What [requests.get(url)], [raise_for_status()] and [json()] give
    together: the decoded body, or a [RequestException] with its text
    (transport failure, a status that is not 2xx, a body that is not
    JSON). *)
Inductive http_reply : Type :=
| Reply (body : json)
| RequestException (text : string).

Record world : Type := mk_world {
  clock : nat -> datetime;       (* what the k-th call of datetime.now() returns *)
  ticks : nat;                   (* calls of datetime.now() so far *)
  backend : string -> http_reply;(* the service behind GET url *)
  stdout : list string           (* lines printed so far, oldest first *)
}.

Inductive outcome (A : Type) : Type :=
| Return (a : A)
| Raise (e : exn).
Arguments Return {A} a.
Arguments Raise {A} e.

Definition M (A : Type) : Type := world -> outcome A * world.

Definition ret {A} (a : A) : M A := fun w => (Return a, w).

Definition raise {A} (e : exn) : M A := fun w => (Raise e, w).

Definition bind {A B} (c : M A) (k : A -> M B) : M B :=
  fun w =>
    match c w with
    | (Return a, w') => k a w'
    | (Raise e, w') => (Raise e, w')
    end.

Definition lift {A} (r : exn + A) : M A :=
  match r with
  | inl e => raise e
  | inr a => ret a
  end.

(** [datetime.now()] *)
Definition datetime_now : M datetime :=
  fun w => (Return (clock w (ticks w)),
            mk_world (clock w) (S (ticks w)) (backend w) (stdout w)).

(** [print(line)] *)
Definition print (line : string) : M unit :=
  fun w => (Return tt,
            mk_world (clock w) (ticks w) (backend w) (stdout w ++ [line])).

(** the three calls on [requests] of [fetch_product_data], as one *)
Definition requests_get_json (url : string) : M http_reply :=
  fun w => (Return (backend w url), w).

(** [[f(x) for x in l]], stopping at the first exception *)
Fixpoint map_exn {A B} (f : A -> exn + B) (l : list A) : exn + list B :=
  match l with
  | [] => inr []
  | x :: rest =>
      match f x with
      | inl e => inl e
      | inr y =>
          match map_exn f rest with
          | inl e => inl e
          | inr ys => inr (y :: ys)
          end
      end
  end.

End Effects.

Declare Scope py_scope.
Delimit Scope py_scope with py.
Notation "x <- c ;; k" := (Effects.bind c (fun x => k))
  (at level 61, c at next level, right associativity) : py_scope.

(* ===================================================================== *)
(** * class RailwayAnalyzer                                               *)
(* ===================================================================== *)

Module RailwayAnalyzer.
Import Py PyDatetime Effects.
Local Open Scope py_scope.

Record self_t : Type := mk_self { api_base_url : string }.

(** [__init__] *)
Definition init (base_url : string) : self_t :=
  {| api_base_url := rstrip "/" base_url |}.

(** [fetch_product_data]: the decoded record, or [None] ([JNull]) after
    printing the error. *)
Definition fetch_product_data (self : self_t) (product_id : string) : M json :=
  reply <- requests_get_json (api_base_url self ++ "/api/products/" ++ product_id)%string ;;
  match reply with
  | Reply body => ret body
  | RequestException e =>
      _ <- print ("Error fetching data for Product ID " ++ product_id ++ ": " ++ e)%string ;;
      ret JNull
  end.

(** [calculate_age_months] *)
Definition calculate_age_months (self : self_t) (supply_date : json) : M Z :=
  supply <- lift (strptime supply_date) ;;
  now <- datetime_now ;;
  ret (td_days (datetime_sub now supply) / 30).

(** What [get_last_inspection_days] returns: an [int], or
    [float('inf')] when there is no inspection. *)
Inductive day_count : Type :=
| DayInt (n : Z)
| DayInf.

(** [d > k] for an [int] threshold [k] *)
Definition day_gt (d : day_count) (k : Z) : bool :=
  match d with
  | DayInt n => n >? k
  | DayInf => true
  end.

(** [str(d)], as an f-string formats it *)
Definition str_of_days (d : day_count) : string :=
  match d with
  | DayInt n => str_of_int n
  | DayInf => "inf"
  end.

(** [get_last_inspection_days] *)
Definition get_last_inspection_days (self : self_t) (inspection_dates : json)
  : M day_count :=
  if negb (truthy inspection_dates) then ret DayInf
  else
    items <- lift (iterate inspection_dates) ;;
    parsed <- lift (map_exn strptime items) ;;
    match parsed with
    | [] => raise ValueError
    | first :: rest =>
        let latest := max_from first rest in
        now <- datetime_now ;;
        ret (DayInt (td_days (datetime_sub now latest)))
    end.

(** The dict [analyze_condition] returns. *)
Record analysis : Type := mk_analysis {
  condition : string;
  risk_score : Z;
  color : string;
  risk_factors : list string;
  age_months : Z;
  days_since_inspection : day_count
}.

(** The two accumulators of [analyze_condition]: [risk_score] and
    [risk_factors]. *)
Definition acc : Type := (Z * list string)%type.

(** lines 46-54: age-based risk *)
Definition age_rule (age_months : Z) (a : acc) : acc :=
  let '(risk_score, risk_factors) := a in
  if age_months >? 48 then
    (risk_score + 40, risk_factors ++ ["Component exceeding recommended service life"])
  else if age_months >? 36 then
    (risk_score + 25, risk_factors ++ ["Component approaching end of service life"])
  else if age_months >? 24 then
    (risk_score + 10, risk_factors ++ ["Component in mid-service period"])
  else a.

(** lines 57-62: inspection-based risk *)
Definition inspection_rule (days : day_count) (a : acc) : acc :=
  let '(risk_score, risk_factors) := a in
  if day_gt days 180 then
    (risk_score + 35, risk_factors ++ ["Overdue for inspection (>6 months)"])
  else if day_gt days 90 then
    (risk_score + 20, risk_factors ++ ["Due for inspection soon"])
  else a.

(** lines 65-67: status-based risk, on the lower-cased status *)
Definition status_rule (lowered : string) (a : acc) : acc :=
  let '(risk_score, risk_factors) := a in
  if str_in lowered ["faulty"; "damaged"; "worn"] then
    (risk_score + 50, risk_factors ++ ["Component status indicates issues"])
  else a.

(** lines 70-78: condition level and its colour *)
Definition condition_level (risk_score : Z) : string * string :=
  if risk_score >=? 70 then ("CRITICAL", "üî¥")
  else if risk_score >=? 40 then ("WARNING", "üü°")
  else ("GOOD", "üü¢").

(** [analyze_condition] *)
Definition analyze_condition (self : self_t) (product_data : json) : M analysis :=
  supply_date <- lift (subscript product_data "dateOfSupply") ;;
  age_months <- calculate_age_months self supply_date ;;
  inspection_dates <- lift (subscript product_data "inspectionDates") ;;
  days_since_inspection <- get_last_inspection_days self inspection_dates ;;
  let a := (0, []) in
  let a := age_rule age_months a in
  let a := inspection_rule days_since_inspection a in
  status <- lift (subscript product_data "status") ;;
  lowered <- lift (lower status) ;;
  let a := status_rule lowered a in
  let '(risk_score, risk_factors) := a in
  let '(condition, color) := condition_level risk_score in
  ret {| condition := condition;
         risk_score := Z.min risk_score 100;
         color := color;
         risk_factors := risk_factors;
         age_months := age_months;
         days_since_inspection := days_since_inspection |}.

(** [generate_recommendations] *)
Definition generate_recommendations (a : analysis) (product_data : json)
  : list string :=
  let recommendations := [] in
  let recommendations :=
    if String.eqb (condition a) "CRITICAL" then
      recommendations
        ++ ["üö® IMMEDIATE ACTION: Replace component immediately"]
        ++ ["üîß Schedule emergency maintenance"]
        ++ ["üìã Conduct thorough safety inspection"]
    else if String.eqb (condition a) "WARNING" then
      recommendations
        ++ ["‚ö†Ô∏è Schedule replacement within 30 days"]
        ++ ["üîç Increase inspection frequency to weekly"]
        ++ ["üìä Monitor closely for deterioration"]
    else
      recommendations
        ++ ["‚úÖ Continue normal operation"]
        ++ ["üìÖ Maintain regular inspection schedule"] in
  let recommendations :=
    if day_gt (days_since_inspection a) 90 then
      recommendations
        ++ [("üîé Schedule inspection (last: " ++ str_of_days (days_since_inspection a) ++ " days ago)")%string]
    else recommendations in
  let recommendations :=
    if age_months a >? 36 then
      recommendations ++ ["üìà Consider proactive replacement planning"]
    else recommendations in
  recommendations.

(** The dict [analyze_product] returns: the error marker, or the report. *)
Record product_info_t : Type := mk_product_info {
  Product_ID : json; Vendor : json; Batch_No : json;
  Supply_Date : json; Warranty : json; Status : json
}.

Record ai_analysis_t : Type := mk_ai_analysis {
  Condition : string; Risk_Score : string; Age : string;
  Last_Inspection : string; Risk_Factors : list string
}.

Inductive report : Type :=
| ErrorReport (error : string)
| SummaryReport (product_info : product_info_t) (ai_analysis : ai_analysis_t)
                (recommendations : list string).

(** [analyze_product] *)
Definition analyze_product (self : self_t) (product_id : string) : M report :=
  product_data <- fetch_product_data self product_id ;;
  if negb (truthy product_data) then
    ret (ErrorReport "Product not found or API error")
  else
    a <- analyze_condition self product_data ;;
    let recommendations := generate_recommendations a product_data in
    productId <- lift (subscript product_data "productId") ;;
    vendor <- lift (subscript product_data "vendor") ;;
    batchNo <- lift (subscript product_data "batchNo") ;;
    dateOfSupply <- lift (subscript product_data "dateOfSupply") ;;
    warrantyPeriod <- lift (subscript product_data "warrantyPeriod") ;;
    status <- lift (subscript product_data "status") ;;
    ret (SummaryReport
           {| Product_ID := productId; Vendor := vendor; Batch_No := batchNo;
              Supply_Date := dateOfSupply; Warranty := warrantyPeriod;
              Status := status |}
           {| Condition := (color a ++ " " ++ condition a)%string;
              Risk_Score := (str_of_int (risk_score a) ++ "/100")%string;
              Age := (str_of_int (age_months a) ++ " months")%string;
              Last_Inspection := (str_of_days (days_since_inspection a) ++ " days ago")%string;
              Risk_Factors := risk_factors a |}
           recommendations).

(** [s * n] *)
Fixpoint str_mul (s : string) (n : nat) : string :=
  match n with
  | O => EmptyString
  | S n' => (s ++ str_mul s n')%string
  end.

(** the character [\n] *)
Definition newline : string := String "010" EmptyString.

(** [for x in l: body(x)] *)
Fixpoint for_each {A} (body : A -> M unit) (l : list A) : M unit :=
  match l with
  | [] => ret tt
  | x :: rest => _ <- body x ;; for_each body rest
  end.

(** [enumerate(l, start)] *)
Fixpoint enumerate {A} (start : Z) (l : list A) : list (Z * A) :=
  match l with
  | [] => []
  | x :: rest => (start, x) :: enumerate (start + 1) rest
  end.

(** [d.items()] for the two inner dicts of a report, in insertion
    order. The values of [ai_analysis] are strings, but for the list of
    risk factors. *)
Definition product_info_items (p : product_info_t) : list (string * json) :=
  [("Product ID", Product_ID p); ("Vendor", Vendor p); ("Batch No", Batch_No p);
   ("Supply Date", Supply_Date p); ("Warranty", Warranty p); ("Status", Status p)].

Definition ai_analysis_items (ai : ai_analysis_t)
  : list (string * (string + list string)) :=
  [("Condition", inl (Condition ai)); ("Risk Score", inl (Risk_Score ai));
   ("Age", inl (Age ai)); ("Last Inspection", inl (Last_Inspection ai));
   ("Risk Factors", inr (Risk_Factors ai))].

Section PrintReport.

(** The builtin [str] on a decoded JSON value, which the f-string of
    line 162 applies to the product fields. *)
Variable str : json -> string.

(** [print_report]. In the loop over [ai_analysis] the test
    [key == 'Risk Factors'] picks the one item whose value is the list. *)
Definition print_report (self : self_t) (product_id : string) : M unit :=
  result <- analyze_product self product_id ;;
  match result with
  | ErrorReport error => print ("‚ùå " ++ error)%string
  | SummaryReport product_info ai_analysis recommendations =>
      _ <- print (newline ++ str_mul "=" 60)%string ;;
      _ <- print "üöÇ RAILWAY TRACK FITTING AI ANALYSIS REPORT" ;;
      _ <- print (str_mul "=" 60) ;;
      _ <- print (newline ++ "üì¶ PRODUCT INFORMATION:")%string ;;
      _ <- for_each (fun '(key, value) =>
                       print ("  " ++ key ++ ": " ++ str value)%string)
             (product_info_items product_info) ;;
      _ <- print (newline ++ "ü§ñ AI CONDITION ANALYSIS:")%string ;;
      _ <- for_each (fun '(key, value) =>
                       match value with
                       | inr factors =>
                           _ <- print ("  " ++ key ++ ":")%string ;;
                           for_each (fun factor =>
                                       print ("    ‚Ä¢ " ++ factor)%string)
                                    factors
                       | inl text => print ("  " ++ key ++ ": " ++ text)%string
                       end)
             (ai_analysis_items ai_analysis) ;;
      _ <- print (newline ++ "üí° AI RECOMMENDATIONS:")%string ;;
      _ <- for_each (fun '(i, rec) =>
                       print ("  " ++ str_of_int i ++ ". " ++ rec)%string)
             (enumerate 1 recommendations) ;;
      print (newline ++ str_mul "=" 60)%string
  end.

End PrintReport.

End RailwayAnalyzer.

(* ===================================================================== *)
(** * Vocabulary of the statements                                        *)
(* ===================================================================== *)

Module Scoring.
Import Py PyDatetime Effects RailwayAnalyzer.

(** The accumulators after the three rules, from the empty ones. *)
Definition rules (age_months : Z) (days : day_count) (lowered : string) : acc :=
  status_rule lowered (inspection_rule days (age_rule age_months (0, []))).

(** The dict built at lines 70-87 from the accumulators. *)
Definition assemble (age_months : Z) (days : day_count) (a : acc) : analysis :=
  {| condition := fst (condition_level (fst a));
     risk_score := Z.min (fst a) 100;
     color := snd (condition_level (fst a));
     risk_factors := snd a;
     age_months := age_months;
     days_since_inspection := days |}.

(** The texts each rule can append. *)
Definition age_factor_texts : list string :=
  ["Component exceeding recommended service life";
   "Component approaching end of service life";
   "Component in mid-service period"].

Definition inspection_factor_texts : list string :=
  ["Overdue for inspection (>6 months)"; "Due for inspection soon"].

Definition status_factor_texts : list string :=
  ["Component status indicates issues"].

Definition is_age_factor (s : string) : bool := str_in s age_factor_texts.

(** A [datetime] as the class builds it: fields within their ranges. *)
Definition well_formed (dt : datetime) : Prop :=
  1 <= year dt <= 9999 /\ 1 <= month dt <= 12 /\
  1 <= day dt <= days_in_month (year dt) (month dt) /\
  0 <= hour dt < 24 /\ 0 <= minute dt < 60 /\ 0 <= second dt < 60 /\
  0 <= microsecond dt < 1000000.

(** [supply] is the calendar day of [now], four years earlier. *)
Definition four_years_before (supply now : datetime) : Prop :=
  year supply = year now - 4 /\ month supply = month now /\ day supply = day now.

(** The next value [datetime.now()] returns in a world. *)
Definition current_time (w : world) : datetime := clock w (ticks w).

(** A world after [n] more calls of [datetime.now()]. *)
Definition tick (n : nat) (w : world) : world :=
  mk_world (clock w) (n + ticks w) (backend w) (stdout w).

(** A record as the data model has it: a supply date and inspection
    dates that [strptime] accepts, and a status that is a string. *)
Definition valid_record (product_data : json) : Prop :=
  exists supply inspections status,
    subscript product_data "dateOfSupply" = inr (JStr supply) /\
    (exists dt, strptime_str supply = inr dt) /\
    subscript product_data "inspectionDates" = inr (JList (map JStr inspections)) /\
    Forall (fun d => exists dt, strptime_str d = inr dt) inspections /\
    subscript product_data "status" = inr (JStr status).

(** The status of a record is absent, or is not a string. *)
Definition status_missing_or_malformed (product_data : json) : Prop :=
  forall s, subscript product_data "status" <> inr (JStr s).

(** The recommendations of each level, and the two that depend on the
    day count and on the age alone. *)
Definition level_texts (condition : string) : list string :=
  if String.eqb condition "CRITICAL" then
    ["üö® IMMEDIATE ACTION: Replace component immediately";
     "üîß Schedule emergency maintenance";
     "üìã Conduct thorough safety inspection"]
  else if String.eqb condition "WARNING" then
    ["‚ö†Ô∏è Schedule replacement within 30 days";
     "üîç Increase inspection frequency to weekly";
     "üìä Monitor closely for deterioration"]
  else
    ["‚úÖ Continue normal operation";
     "üìÖ Maintain regular inspection schedule"].

Definition inspection_texts (days : day_count) : list string :=
  if day_gt days 90 then
    [("üîé Schedule inspection (last: " ++ str_of_days days ++ " days ago)")%string]
  else [].

Definition age_texts (age_months : Z) : list string :=
  if age_months >? 36 then ["üìà Consider proactive replacement planning"] else [].

End Scoring.

(* ===================================================================== *)
(** * Further vocabulary                                                  *)
(* ===================================================================== *)

Module Notions.
Import Py PyDatetime Effects RailwayAnalyzer Scoring.

(** A calendar day: a month of the year and a day of that month. *)
Definition valid_date (dt : datetime) : Prop :=
  1 <= month dt <= 12 /\ 1 <= day dt <= days_in_month (year dt) (month dt).

(** A field at midnight. *)
Definition at_midnight (dt : datetime) : Prop :=
  dt = mk_datetime (year dt) (month dt) (day dt) 0 0 0 0.

(** What [get_last_inspection_days] accepts: a falsy value, or an
    iterable whose items [strptime] all accepts. *)
Definition dates_readable (v : json) : Prop :=
  truthy v = false \/
  exists items parsed, iterate v = inr items /\ map_exn strptime items = inr parsed.

(** A string of ASCII characters. *)
Fixpoint is_ascii (s : string) : bool :=
  match s with
  | EmptyString => true
  | String c r => (Nat.ltb (nat_of_ascii c) 128 && is_ascii r)%bool
  end.

(** The strings of a record that [strptime] is given: the supply date,
    and the items of the inspection dates. *)
Definition date_texts (product_data : json) : list string :=
  let strings :=
    flat_map (fun v => match v with JStr s => [s] | _ => [] end) in
  match subscript product_data "dateOfSupply" with
  | inr supply_date => strings [supply_date]
  | inl _ => []
  end
  ++ match subscript product_data "inspectionDates" with
     | inr inspection_dates =>
         match iterate inspection_dates with
         | inr items => strings items
         | inl _ => []
         end
     | inl _ => []
     end.

(** The dates of a record are written in ASCII. *)
Definition dates_in_ascii (product_data : json) : Prop :=
  Forall (fun s => is_ascii s = true) (date_texts product_data).

(** The lower-cased status is one of the three words of line 65. *)
Definition status_bad (lowered : string) : bool :=
  str_in lowered ["faulty"; "damaged"; "worn"].

(** [d1 <= d2] on day counts, the sentinel above every integer. *)
Definition day_le (d1 d2 : day_count) : Prop :=
  match d1, d2 with
  | DayInt n1, DayInt n2 => n1 <= n2
  | _, DayInf => True
  | DayInf, DayInt _ => False
  end.

(** The first key of a list a dict lacks. *)
Fixpoint first_missing (d : list (string * json)) (keys : list string)
  : option string :=
  match keys with
  | [] => None
  | k :: rest =>
      match dict_get d k with
      | Some _ => first_missing d rest
      | None => Some k
      end
  end.

(** A world with more lines printed. *)
Definition printed (lines : list string) (w : world) : world :=
  mk_world (clock w) (ticks w) (backend w) (stdout w ++ lines).

End Notions.

(* ===================================================================== *)
(** * Sample worlds and records                                           *)
(* ===================================================================== *)

Module Samples.
Import Py PyDatetime Effects RailwayAnalyzer.

Definition analyzer : self_t := init "http://localhost:3000/".

(** 3 November 2026, 12:30:00.000005 *)
Definition noon : datetime := mk_datetime 2026 11 3 12 30 0 5.

(** 3 November 2030, 12:30:00.000005 *)
Definition later : datetime := mk_datetime 2030 11 3 12 30 0 5.

Definition record (supply : string) (inspections : list string) (status : json)
  : json :=
  JDict [("productId", JStr "1234"); ("vendor", JStr "Acme Rail");
         ("batchNo", JStr "B-7"); ("dateOfSupply", JStr supply);
         ("warrantyPeriod", JStr "5 years"); ("status", status);
         ("inspectionDates", JList (map JStr inspections))].

(** A service that knows product 1234 only. *)
Definition service (body : json) (url : string) : http_reply :=
  if String.eqb url "http://localhost:3000/api/products/1234"
  then Reply body
  else RequestException "404 Client Error: Not Found".

(** A world whose clock stands at [t]. *)
Definition world_at (t : datetime) (body : json) : world :=
  mk_world (fun _ => t) 0 (service body) [].

Definition four_years_old : json := record "2022-11-03" [] (JStr "good").
Definition brand_new : json := record "2026-10-01" ["2026-10-20"] (JStr "good").
Definition worn_out : json := record "2020-01-01" [] (JStr "Faulty").
Definition at_seventy : json := record "2026-10-01" ["2026-07-01"] (JStr "faulty").
Definition at_forty : json := record "2020-01-01" ["2026-10-20"] (JStr "good").
Definition aged_forty_months : json :=
  record "2023-07-01" ["2026-03-01"; "2026-07-26"; "2025-12-24"] (JStr "WORN").
Definition aged_25_months : json := record "2024-10-14" ["2026-10-20"] (JStr "good").
Definition aged_37_months : json := record "2023-10-20" ["2026-10-20"] (JStr "good").
Definition aged_49_months : json := record "2022-10-01" ["2026-10-20"] (JStr "good").
Definition no_status : json :=
  JDict [("dateOfSupply", JStr "2022-11-03"); ("inspectionDates", JList [])].
Definition numeric_status : json := record "2022-11-03" [] (JInt 3).

(** The same component, its status written in two cases. *)
Definition status_capitalised : json :=
  record "2026-10-01" ["2026-10-20"] (JStr "Damaged").
Definition status_upper_case : json :=
  record "2026-10-01" ["2026-10-20"] (JStr "DAMAGED").

(** A record that lacks the vendor and the batch number. *)
Definition no_vendor : json :=
  JDict [("productId", JStr "1234"); ("dateOfSupply", JStr "2026-10-01");
         ("warrantyPeriod", JStr "5 years"); ("status", JStr "good");
         ("inspectionDates", JList [JStr "2026-10-20"])].

(** A [str] for the fields of the samples, which are strings. *)
Definition sample_str (v : json) : string :=
  match v with
  | JStr s => s
  | _ => "?"
  end.

(** Three inspections, and the same three in another order. *)
Definition three_inspections : list json :=
  [JStr "2026-03-01"; JStr "2026-07-26"; JStr "2025-12-24"].
Definition three_inspections_shuffled : list json :=
  [JStr "2026-07-26"; JStr "2025-12-24"; JStr "2026-03-01"].

End Samples.

(* ===================================================================== *)
(** * Running the monad                                                   *)
(* ===================================================================== *)

Module Run.
Import Py PyDatetime Effects RailwayAnalyzer Scoring.
Local Open Scope py_scope.

Lemma bind_Return {A B} (c : M A) (k : A -> M B) w b w' :
  bind c k w = (Return b, w') ->
  exists a w1, c w = (Return a, w1) /\ k a w1 = (Return b, w').
Proof.
  unfold bind. destruct (c w) as [[a | e] w1]; intros H.
  - exists a, w1. split; [reflexivity | exact H].
  - discriminate H.
Qed.

Lemma bind_run {A B} (c : M A) (k : A -> M B) w a w1 :
  c w = (Return a, w1) -> bind c k w = k a w1.
Proof. intros H. unfold bind. rewrite H. reflexivity. Qed.

Lemma bind_Raise {A B} (c : M A) (k : A -> M B) w e w1 :
  c w = (Raise e, w1) -> bind c k w = (Raise e, w1).
Proof. intros H. unfold bind. rewrite H. reflexivity. Qed.

Lemma lift_Return {A} (r : exn + A) w a w' :
  lift r w = (Return a, w') -> r = inr a /\ w' = w.
Proof.
  destruct r as [e | x]; cbn; intros H; inversion H; subst; auto.
Qed.

Lemma ret_Return {A} (x : A) w a w' :
  ret x w = (Return a, w') -> a = x /\ w' = w.
Proof. cbn. intros H. inversion H; subst; auto. Qed.

(** A run of [analyze_condition] that returns has read the three fields
    in turn, and its result is the assembly of the rules' accumulators. *)
Lemma analyze_condition_inv self pd w a w' :
  analyze_condition self pd w = (Return a, w') ->
  exists supply_date inspection_dates s w1,
    subscript pd "dateOfSupply" = inr supply_date /\
    calculate_age_months self supply_date w = (Return (age_months a), w1) /\
    subscript pd "inspectionDates" = inr inspection_dates /\
    get_last_inspection_days self inspection_dates w1
      = (Return (days_since_inspection a), w') /\
    subscript pd "status" = inr (JStr s) /\
    a = assemble (age_months a) (days_since_inspection a)
          (rules (age_months a) (days_since_inspection a) (str_lower s)).
Proof.
  unfold analyze_condition. intros H.
  apply bind_Return in H. destruct H as (sd & w0 & Hsd & H).
  apply lift_Return in Hsd. destruct Hsd as [Hsd ->].
  apply bind_Return in H. destruct H as (age & w1 & Hage & H).
  apply bind_Return in H. destruct H as (ids & w1' & Hids & H).
  apply lift_Return in Hids. destruct Hids as [Hids ->].
  apply bind_Return in H. destruct H as (days & w2 & Hdays & H).
  apply bind_Return in H. destruct H as (st & w2' & Hst & H).
  apply lift_Return in Hst. destruct Hst as [Hst ->].
  apply bind_Return in H. destruct H as (low & w2' & Hlow & H).
  apply lift_Return in Hlow. destruct Hlow as [Hlow ->].
  destruct st as [| | | | s | |]; try discriminate Hlow.
  cbn in Hlow. inversion Hlow; subst low; clear Hlow.
  fold (rules age days (str_lower s)) in H.
  destruct (rules age days (str_lower s)) as [score factors] eqn:Hr.
  destruct (condition_level score) as [c col] eqn:Hc.
  apply ret_Return in H. destruct H as [-> ->]. cbn.
  exists sd, ids, s, w1. repeat split; try assumption.
  unfold assemble. rewrite Hr. cbn. rewrite Hc. reflexivity.
Qed.

(** The run of [analyze_condition], step by step. *)
Lemma analyze_condition_steps self pd w :
  analyze_condition self pd w
  = match subscript pd "dateOfSupply" with
    | inl e => (Raise e, w)
    | inr supply_date =>
    match calculate_age_months self supply_date w with
    | (Raise e, w1) => (Raise e, w1)
    | (Return age, w1) =>
    match subscript pd "inspectionDates" with
    | inl e => (Raise e, w1)
    | inr inspection_dates =>
    match get_last_inspection_days self inspection_dates w1 with
    | (Raise e, w2) => (Raise e, w2)
    | (Return days, w2) =>
    match subscript pd "status" with
    | inl e => (Raise e, w2)
    | inr status =>
    match lower status with
    | inl e => (Raise e, w2)
    | inr lowered => (Return (assemble age days (rules age days lowered)), w2)
    end end end end end end.
Proof.
  unfold analyze_condition, bind, lift, ret, raise.
  destruct (subscript pd "dateOfSupply") as [e | sd]; [reflexivity|].
  destruct (calculate_age_months self sd w) as [[age | e] w1]; [|reflexivity].
  destruct (subscript pd "inspectionDates") as [e | ids]; [reflexivity|].
  destruct (get_last_inspection_days self ids w1) as [[days | e] w2]; [|reflexivity].
  destruct (subscript pd "status") as [e | status]; [reflexivity|].
  destruct (lower status) as [e | lowered]; [reflexivity|].
  fold (rules age days lowered).
  destruct (rules age days lowered) as [score factors].
  unfold assemble. cbn [fst snd].
  destruct (condition_level score) as [c col]. reflexivity.
Qed.

(** The converse: once the three fields are read, the run returns. *)
Lemma analyze_condition_run self pd w supply_date age inspection_dates days s w1 w2 :
  subscript pd "dateOfSupply" = inr supply_date ->
  calculate_age_months self supply_date w = (Return age, w1) ->
  subscript pd "inspectionDates" = inr inspection_dates ->
  get_last_inspection_days self inspection_dates w1 = (Return days, w2) ->
  subscript pd "status" = inr (JStr s) ->
  analyze_condition self pd w
    = (Return (assemble age days (rules age days (str_lower s))), w2).
Proof.
  intros Hsd Hage Hids Hdays Hst. unfold analyze_condition.
  rewrite Hsd, Hids, Hst. unfold bind, lift, lower, ret, raise.
  rewrite Hage, Hdays. cbv beta iota.
  fold (rules age days (str_lower s)).
  destruct (rules age days (str_lower s)) as [score factors].
  unfold assemble. cbn [fst snd].
  destruct (condition_level score) as [c col]. reflexivity.
Qed.

(** [calculate_age_months], run: one reading of the clock after the
    parse. *)
Lemma calculate_age_months_run self supply_date w :
  calculate_age_months self supply_date w
  = match strptime supply_date with
    | inl e => (Raise e, w)
    | inr supply =>
        (Return (td_days (datetime_sub (current_time w) supply) / 30), tick 1 w)
    end.
Proof.
  unfold calculate_age_months, bind, lift.
  destruct (strptime supply_date); reflexivity.
Qed.

(** [get_last_inspection_days], run: no reading of the clock without an
    inspection, one after the parse of them all otherwise. *)
Lemma get_last_inspection_days_run self inspection_dates w :
  get_last_inspection_days self inspection_dates w
  = if negb (truthy inspection_dates) then (Return DayInf, w)
    else
      match iterate inspection_dates with
      | inl e => (Raise e, w)
      | inr items =>
          match map_exn strptime items with
          | inl e => (Raise e, w)
          | inr [] => (Raise ValueError, w)
          | inr (first :: rest) =>
              (Return (DayInt (td_days (datetime_sub (current_time w)
                                                     (max_from first rest)))),
               tick 1 w)
          end
      end.
Proof.
  unfold get_last_inspection_days, bind, lift.
  destruct (negb (truthy inspection_dates)); [reflexivity|].
  destruct (iterate inspection_dates) as [e | items]; [reflexivity|].
  cbn. destruct (map_exn strptime items) as [e | [| first rest]]; reflexivity.
Qed.

Lemma map_exn_strptime_ok inspections :
  Forall (fun d => exists dt, strptime_str d = inr dt) inspections ->
  exists parsed,
    map_exn strptime (map JStr inspections) = inr parsed /\
    List.length parsed = List.length inspections.
Proof.
  induction 1 as [| d ds [dt Hd] _ (parsed & IH & Hlen)].
  - exists []. split; reflexivity.
  - exists (dt :: parsed). cbn. rewrite Hd, IH, Hlen. split; reflexivity.
Qed.

(** On a valid record the scorer returns an analysis, whatever the
    clock. *)
Lemma valid_record_returns self pd w :
  valid_record pd -> exists a w', analyze_condition self pd w = (Return a, w').
Proof.
  intros (supply & inspections & status & Hsd & [dt Hdt] & Hids & Hall & Hst).
  destruct (map_exn_strptime_ok _ Hall) as (parsed & Hparsed & Hlen).
  assert (Hage : exists age w1,
             calculate_age_months self (JStr supply) w = (Return age, w1)).
  { unfold calculate_age_months, bind, lift, strptime. rewrite Hdt.
    eexists. eexists. reflexivity. }
  destruct Hage as (age & w1 & Hage).
  assert (Hdays : exists days w2,
             get_last_inspection_days self (JList (map JStr inspections)) w1
             = (Return days, w2)).
  { destruct inspections as [| d ds]; [eexists; eexists; reflexivity|].
    rewrite get_last_inspection_days_run.
    change (negb (truthy (JList (map JStr (d :: ds))))) with false.
    cbv iota. cbn [iterate]. rewrite Hparsed.
    destruct parsed as [| first rest]; [discriminate Hlen|].
    eexists. eexists. reflexivity. }
  destruct Hdays as (days & w2 & Hdays).
  eexists. eexists.
  exact (analyze_condition_run _ _ _ _ _ _ _ _ _ _ Hsd Hage Hids Hdays Hst).
Qed.

(** ** The rules, one at a time *)

Lemma age_rule_shape age score factors :
  exists points texts,
    age_rule age (score, factors) = (score + points, factors ++ texts) /\
    age_rule age (0, []) = (points, texts) /\
    0 <= points <= 40 /\ (List.length texts <= 1)%nat.
Proof.
  unfold age_rule.
  destruct (age >? 48); [|destruct (age >? 36); [|destruct (age >? 24)]];
    [ eexists; eexists; split; [reflexivity|] ..
    | exists 0, []; rewrite app_nil_r, Z.add_0_r; split; [reflexivity|] ];
    cbn; repeat split; try reflexivity; lia.
Qed.

Lemma inspection_rule_shape days score factors :
  exists points texts,
    inspection_rule days (score, factors) = (score + points, factors ++ texts) /\
    inspection_rule days (0, []) = (points, texts) /\
    0 <= points <= 35 /\ (List.length texts <= 1)%nat.
Proof.
  unfold inspection_rule.
  destruct (day_gt days 180); [|destruct (day_gt days 90)];
    [ eexists; eexists; split; [reflexivity|] ..
    | exists 0, []; rewrite app_nil_r, Z.add_0_r; split; [reflexivity|] ];
    cbn; repeat split; try reflexivity; lia.
Qed.

Lemma status_rule_shape lowered score factors :
  exists points texts,
    status_rule lowered (score, factors) = (score + points, factors ++ texts) /\
    status_rule lowered (0, []) = (points, texts) /\
    0 <= points <= 50 /\ (List.length texts <= 1)%nat.
Proof.
  unfold status_rule.
  destruct (str_in lowered _);
    [ eexists; eexists; split; [reflexivity|]
    | exists 0, []; rewrite app_nil_r, Z.add_0_r; split; [reflexivity|] ];
    cbn; repeat split; try reflexivity; lia.
Qed.

(** The accumulators after the three rules are the sums and the
    concatenation of what each rule gives alone. *)
Lemma rules_split age days lowered :
  rules age days lowered
  = (fst (age_rule age (0, [])) + fst (inspection_rule days (0, []))
       + fst (status_rule lowered (0, [])),
     snd (age_rule age (0, [])) ++ snd (inspection_rule days (0, []))
       ++ snd (status_rule lowered (0, []))).
Proof.
  unfold rules.
  destruct (age_rule_shape age 0 []) as (p1 & t1 & E1 & E1' & _).
  rewrite E1'. cbn [fst snd].
  destruct (inspection_rule_shape days p1 t1) as (p2 & t2 & E2 & E2' & _).
  rewrite E2, E2'. cbn [fst snd].
  destruct (status_rule_shape lowered (p1 + p2) (t1 ++ t2)) as (p3 & t3 & E3 & E3' & _).
  rewrite E3, E3'. cbn [fst snd]. rewrite app_assoc. reflexivity.
Qed.

Lemma rules_bounds age days lowered :
  0 <= fst (rules age days lowered) <= 125.
Proof.
  rewrite rules_split. cbn [fst].
  destruct (age_rule_shape age 0 []) as (p1 & t1 & _ & -> & B1 & _).
  destruct (inspection_rule_shape days 0 []) as (p2 & t2 & _ & -> & B2 & _).
  destruct (status_rule_shape lowered 0 []) as (p3 & t3 & _ & -> & B3 & _).
  cbn [fst]. lia.
Qed.

Lemma condition_level_cases score :
  (70 <= score /\ fst (condition_level score) = "CRITICAL") \/
  (40 <= score < 70 /\ fst (condition_level score) = "WARNING") \/
  (score < 40 /\ fst (condition_level score) = "GOOD").
Proof.
  unfold condition_level.
  destruct (Z.geb_spec score 70); [left; cbn; split; [lia | reflexivity]|].
  destruct (Z.geb_spec score 40); [right; left | right; right];
    cbn; (split; [lia | reflexivity]).
Qed.

(** Clamping at 100 does not move a score across a threshold. *)
Lemma condition_level_min score :
  condition_level (Z.min score 100) = condition_level score.
Proof.
  unfold condition_level.
  destruct (Z.geb_spec score 70), (Z.geb_spec (Z.min score 100) 70); try lia;
    try reflexivity.
  destruct (Z.geb_spec score 40), (Z.geb_spec (Z.min score 100) 40); try lia;
    reflexivity.
Qed.

End Run.

(* ===================================================================== *)
(** * The condition level and the reported score                          *)
(* ===================================================================== *)

Section ConditionLevel.
Import Py PyDatetime Effects RailwayAnalyzer Scoring Samples Run.

Variables (self : self_t) (product_data : json) (w w' : world) (a : analysis).
Hypothesis returned : analyze_condition self product_data w = (Return a, w').

(** What a returned analysis is made of: the accumulators of the rules on
    its own age and day count and on the lower-cased status. *)
Lemma returned_analysis :
  exists s,
    subscript product_data "status" = inr (JStr s) /\
    a = assemble (age_months a) (days_since_inspection a)
          (rules (age_months a) (days_since_inspection a) (str_lower s)).
Proof.
  destruct (analyze_condition_inv _ _ _ _ _ returned)
    as (sd & ids & s & w1 & _ & _ & _ & _ & Hs & Ha).
  exists s. split; assumption.
Qed.

(** C2. The condition of a returned analysis is CRITICAL exactly when the
    reported risk score is at least 70, WARNING exactly when it is from
    40 to 69, GOOD exactly when it is below 40; it is always one of the
    three, and the level step puts 39 in GOOD, 40 and 69 in WARNING and
    70 in CRITICAL. *)
Theorem condition_partitions_risk_score :
  (condition a = "CRITICAL" <-> 70 <= risk_score a) /\
  (condition a = "WARNING" <-> 40 <= risk_score a < 70) /\
  (condition a = "GOOD" <-> risk_score a < 40) /\
  (condition a = "CRITICAL" \/ condition a = "WARNING" \/ condition a = "GOOD") /\
  fst (condition_level 39) = "GOOD" /\
  fst (condition_level 40) = "WARNING" /\
  fst (condition_level 69) = "WARNING" /\
  fst (condition_level 70) = "CRITICAL".
Proof.
  destruct returned_analysis as (s & _ & Ha).
  set (raw := fst (rules (age_months a) (days_since_inspection a) (str_lower s))) in *.
  assert (Hc : condition a = fst (condition_level raw)) by (rewrite Ha; reflexivity).
  assert (Hs : risk_score a = Z.min raw 100) by (rewrite Ha; reflexivity).
  rewrite Hc, Hs.
  destruct (condition_level_cases raw) as [[Hr ->] | [[Hr ->] | [Hr ->]]];
    repeat split; intros; try lia; try discriminate; try reflexivity; auto.
Qed.

(** C3. The reported risk score lies between 0 and 100. It is the
    minimum of 100 and the sum the rules accumulated, a sum between 0 and
    125 that is itself never cut: the condition level is read off the
    sum, the clamp is applied to the reported value only. *)
Theorem risk_score_clamped :
  exists s raw factors,
    subscript product_data "status" = inr (JStr s) /\
    rules (age_months a) (days_since_inspection a) (str_lower s) = (raw, factors) /\
    raw = fst (age_rule (age_months a) (0, []))
          + fst (inspection_rule (days_since_inspection a) (0, []))
          + fst (status_rule (str_lower s) (0, [])) /\
    0 <= raw <= 125 /\
    risk_score a = Z.min raw 100 /\
    0 <= risk_score a <= 100 /\
    condition a = fst (condition_level raw).
Proof.
  destruct returned_analysis as (s & Hst & Ha).
  pose proof (rules_bounds (age_months a) (days_since_inspection a) (str_lower s)) as Hb.
  pose proof (rules_split (age_months a) (days_since_inspection a) (str_lower s)) as Hsp.
  destruct (rules (age_months a) (days_since_inspection a) (str_lower s))
    as [raw factors] eqn:Hr.
  cbn [fst] in Hb.
  exists s, raw, factors.
  assert (Hs : risk_score a = Z.min raw 100) by (rewrite Ha; reflexivity).
  assert (Hc : condition a = fst (condition_level raw)) by (rewrite Ha; reflexivity).
  repeat split; try assumption; try lia.
  inversion Hsp. reflexivity.
Qed.

(** C10. The level is chosen from the sum before the clamp: CRITICAL from
    70, WARNING from 40 to 69, GOOD below 40. Yet the condition agrees
    with the same partition applied to the reported, clamped score; and
    when the sum exceeds 100 the reported score is 100 and the condition
    CRITICAL. *)
Theorem condition_agrees_with_clamped_score :
  exists s raw factors,
    subscript product_data "status" = inr (JStr s) /\
    rules (age_months a) (days_since_inspection a) (str_lower s) = (raw, factors) /\
    risk_score a = Z.min raw 100 /\
    (condition a = "CRITICAL" <-> 70 <= raw) /\
    (condition a = "WARNING" <-> 40 <= raw < 70) /\
    (condition a = "GOOD" <-> raw < 40) /\
    (condition a = "CRITICAL" <-> 70 <= risk_score a) /\
    (condition a = "WARNING" <-> 40 <= risk_score a < 70) /\
    (condition a = "GOOD" <-> risk_score a < 40) /\
    (condition a, color a) = condition_level raw /\
    (condition a, color a) = condition_level (risk_score a) /\
    (100 < raw -> risk_score a = 100 /\ condition a = "CRITICAL").
Proof.
  destruct returned_analysis as (s & Hst & Ha).
  destruct (rules (age_months a) (days_since_inspection a) (str_lower s))
    as [raw factors] eqn:Hr.
  exists s, raw, factors.
  assert (Hs : risk_score a = Z.min raw 100) by (rewrite Ha; reflexivity).
  assert (Hc : (condition a, color a) = condition_level raw).
  { rewrite Ha. cbn. destruct (condition_level raw); reflexivity. }
  assert (Hf : condition a = fst (condition_level raw))
    by (rewrite <- Hc; reflexivity).
  split; [exact Hst|]. split; [exact Hr|]. split; [exact Hs|].
  assert (Hraw : (condition a = "CRITICAL" <-> 70 <= raw) /\
                 (condition a = "WARNING" <-> 40 <= raw < 70) /\
                 (condition a = "GOOD" <-> raw < 40)).
  { rewrite Hf.
    destruct (condition_level_cases raw) as [[Hb ->] | [[Hb ->] | [Hb ->]]];
      repeat split; intros; try lia; try discriminate; reflexivity. }
  destruct Hraw as (H70 & H40 & H0).
  split; [exact H70|]. split; [exact H40|]. split; [exact H0|].
  rewrite Hs.
  split; [rewrite H70; lia|]. split; [rewrite H40; lia|]. split; [rewrite H0; lia|].
  split; [exact Hc|].
  split; [rewrite condition_level_min; exact Hc|].
  intros Hbig. split; [lia|]. apply H70. lia.
Qed.

End ConditionLevel.

Section ConditionLevelWitnesses.
Import Py PyDatetime Effects RailwayAnalyzer Scoring Samples.

(** A record scored exactly 70 (inspected 125 days ago, status faulty):
    CRITICAL. *)
Lemma condition_partitions_risk_score_witness :
  exists a w',
    analyze_condition analyzer at_seventy (world_at noon JNull) = (Return a, w') /\
    risk_score a = 70 /\
    (condition a = "CRITICAL" <-> 70 <= risk_score a) /\
    (condition a = "WARNING" <-> 40 <= risk_score a < 70) /\
    (condition a = "GOOD" <-> risk_score a < 40).
Proof.
  eexists. eexists. split; [lazy; reflexivity|]. split; [reflexivity|].
  pose proof (condition_partitions_risk_score
                analyzer at_seventy (world_at noon JNull) _ _ eq_refl) as H.
  destruct H as (H1 & H2 & H3 & _). exact (conj H1 (conj H2 H3)).
Defined.

(** A record whose rules sum to 125 (83 months old, never inspected,
    status Faulty): reported as 100. *)
Lemma risk_score_clamped_witness :
  exists a w',
    analyze_condition analyzer worn_out (world_at noon JNull) = (Return a, w') /\
    exists s raw factors,
      subscript worn_out "status" = inr (JStr s) /\
      rules (age_months a) (days_since_inspection a) (str_lower s) = (raw, factors) /\
      raw = 125 /\ risk_score a = 100 /\ condition a = "CRITICAL".
Proof.
  eexists. eexists. split; [lazy; reflexivity|].
  destruct (risk_score_clamped analyzer worn_out (world_at noon JNull) _ _ eq_refl)
    as (s & raw & factors & Hs & Hr & Hraw & _ & Hscore & _ & Hc).
  exists s, raw, factors.
  assert (s = "Faulty") by (vm_compute in Hs; congruence). subst s.
  assert (raw = 125) by (rewrite Hraw; reflexivity). subst raw.
  repeat split; assumption.
Defined.

(** The same record: the sum exceeds 100, the score is 100, the condition
    CRITICAL. And a new component, inspected 14 days ago, of status good:
    a sum of 0, a score of 0, GOOD. *)
Lemma condition_agrees_with_clamped_score_witness :
  (exists a w',
     analyze_condition analyzer worn_out (world_at noon JNull) = (Return a, w') /\
     risk_score a = 100 /\ condition a = "CRITICAL" /\ 70 <= risk_score a) /\
  (exists a w',
     analyze_condition analyzer brand_new (world_at noon JNull) = (Return a, w') /\
     risk_score a = 0 /\ condition a = "GOOD" /\ risk_score a < 40).
Proof.
  split.
  - eexists. eexists. split; [lazy; reflexivity|].
    destruct (condition_agrees_with_clamped_score
                analyzer worn_out (world_at noon JNull) _ _ eq_refl)
      as (s & raw & factors & Hs & Hr & _ & _ & _ & _ & H70 & _ & _ & _ & _ & Hbig).
    assert (s = "Faulty") by (vm_compute in Hs; congruence). subst s.
    assert (Hraw : 100 < raw) by (vm_compute in Hr; inversion Hr; reflexivity).
    destruct (Hbig Hraw) as [H100 Hcrit].
    split; [exact H100|]. split; [exact Hcrit|]. apply H70. exact Hcrit.
  - eexists. eexists. split; [lazy; reflexivity|].
    destruct (condition_agrees_with_clamped_score
                analyzer brand_new (world_at noon JNull) _ _ eq_refl)
      as (s & raw & factors & Hs & Hr & Hscore & _ & _ & _ & _ & _ & H0 & _).
    split; [reflexivity|].
    split; [apply H0; vm_compute; reflexivity | vm_compute; reflexivity].
Defined.

End ConditionLevelWitnesses.

(* ===================================================================== *)
(** * Risk factors                                                        *)
(* ===================================================================== *)

Section RiskFactors.
Import Py PyDatetime Effects RailwayAnalyzer Scoring Samples Run.

Lemma age_rule_texts age :
  snd (age_rule age (0, [])) =
    if age >? 48 then ["Component exceeding recommended service life"]
    else if age >? 36 then ["Component approaching end of service life"]
    else if age >? 24 then ["Component in mid-service period"]
    else [].
Proof.
  unfold age_rule.
  destruct (age >? 48); [|destruct (age >? 36); [|destruct (age >? 24)]];
    reflexivity.
Qed.

(** Whatever the three rules append, the age texts among the result are
    what the age rule appended. *)
Lemma age_factors_of_rules age days lowered :
  filter is_age_factor (snd (rules age days lowered)) = snd (age_rule age (0, [])).
Proof.
  rewrite rules_split. cbn [snd]. rewrite !filter_app.
  unfold age_rule, inspection_rule, status_rule.
  destruct (age >? 48); [|destruct (age >? 36); [|destruct (age >? 24)]];
    (destruct (day_gt days 180); [|destruct (day_gt days 90)]);
    destruct (str_in lowered _); reflexivity.
Qed.

Lemma rule_texts_incl age days lowered :
  incl (snd (age_rule age (0, []))) age_factor_texts /\
  incl (snd (inspection_rule days (0, []))) inspection_factor_texts /\
  incl (snd (status_rule lowered (0, []))) status_factor_texts.
Proof.
  unfold age_rule, inspection_rule, status_rule, incl.
  destruct (age >? 48); [|destruct (age >? 36); [|destruct (age >? 24)]];
    (destruct (day_gt days 180); [|destruct (day_gt days 90)]);
    destruct (str_in lowered _); cbn; intuition (subst; auto).
Qed.

Variables (self : self_t) (product_data : json) (w w' : world) (a : analysis).
Hypothesis returned : analyze_condition self product_data w = (Return a, w').

(** C6. The risk factors are what the age rule appended, then what the
    inspection rule appended, then what the status rule appended: at most
    one text each, each from its own rule. So at most one age text
    appears, that of the first bucket met from the most severe down; at
    25, 37 and 49 months it is the one of the bucket, alone. *)
Theorem risk_factors_in_rule_order :
  exists s,
    subscript product_data "status" = inr (JStr s) /\
    let from_age := snd (age_rule (age_months a) (0, [])) in
    let from_inspection := snd (inspection_rule (days_since_inspection a) (0, [])) in
    let from_status := snd (status_rule (str_lower s) (0, [])) in
    risk_factors a = from_age ++ from_inspection ++ from_status /\
    ((List.length from_age <= 1)%nat /\ incl from_age age_factor_texts) /\
    ((List.length from_inspection <= 1)%nat /\
       incl from_inspection inspection_factor_texts) /\
    ((List.length from_status <= 1)%nat /\ incl from_status status_factor_texts) /\
    filter is_age_factor (risk_factors a) = from_age /\
    (List.length (filter is_age_factor (risk_factors a)) <= 1)%nat /\
    (48 < age_months a ->
       from_age = ["Component exceeding recommended service life"]) /\
    (36 < age_months a <= 48 ->
       from_age = ["Component approaching end of service life"]) /\
    (24 < age_months a <= 36 -> from_age = ["Component in mid-service period"]) /\
    (age_months a <= 24 -> from_age = []) /\
    (age_months a = 25 ->
       filter is_age_factor (risk_factors a) = ["Component in mid-service period"]) /\
    (age_months a = 37 ->
       filter is_age_factor (risk_factors a)
         = ["Component approaching end of service life"]) /\
    (age_months a = 49 ->
       filter is_age_factor (risk_factors a)
         = ["Component exceeding recommended service life"]).
Proof.
  destruct (analyze_condition_inv _ _ _ _ _ returned)
    as (sd & ids & s & w1 & _ & _ & _ & _ & Hs & Ha).
  exists s. split; [exact Hs|]. cbv zeta.
  set (age := age_months a) in *. set (days := days_since_inspection a) in *.
  assert (Hf : risk_factors a = snd (rules age days (str_lower s)))
    by (rewrite Ha; reflexivity).
  assert (Hfilter : filter is_age_factor (risk_factors a) = snd (age_rule age (0, [])))
    by (rewrite Hf; apply age_factors_of_rules).
  destruct (age_rule_shape age 0 []) as (p1 & t1 & _ & E1 & _ & L1).
  destruct (inspection_rule_shape days 0 []) as (p2 & t2 & _ & E2 & _ & L2).
  destruct (status_rule_shape (str_lower s) 0 []) as (p3 & t3 & _ & E3 & _ & L3).
  destruct (rule_texts_incl age days (str_lower s)) as (I1 & I2 & I3).
  pose proof (age_rule_texts age) as Ht.
  rewrite Hfilter.
  split; [rewrite Hf, rules_split; reflexivity|].
  rewrite E1, E2, E3 in *. cbn [snd] in *.
  repeat split; try assumption;
    intros Hage; rewrite Ht;
    repeat match goal with
    | |- context [?x >? ?y] => destruct (Z.gtb_spec x y); try lia
    end; reflexivity.
Qed.

End RiskFactors.

Section RiskFactorsWitness.
Import Py PyDatetime Effects RailwayAnalyzer Scoring Samples.

(** A record aged 49 months: one age text, that of the oldest bucket. *)
Lemma risk_factors_in_rule_order_witness :
  exists a w',
    analyze_condition analyzer aged_49_months (world_at noon JNull) = (Return a, w') /\
    age_months a = 49 /\
    filter is_age_factor (risk_factors a)
      = ["Component exceeding recommended service life"].
Proof.
  eexists. eexists. split; [lazy; reflexivity|]. split; [reflexivity|].
  destruct (risk_factors_in_rule_order
              analyzer aged_49_months (world_at noon JNull) _ _ eq_refl)
    as (s & _ & H).
  cbv zeta in H. apply H. reflexivity.
Defined.

End RiskFactorsWitness.

(* ===================================================================== *)
(** * Recommendations                                                     *)
(* ===================================================================== *)

Section Recommendations.
Import Py PyDatetime Effects RailwayAnalyzer Scoring Samples Run.

(** The three groups of [generate_recommendations] are appended one
    after the other, each read off one field of the analysis. *)
Lemma recommendations_additive (a : analysis) (product_data : json) :
  generate_recommendations a product_data
  = level_texts (condition a)
      ++ inspection_texts (days_since_inspection a)
      ++ age_texts (age_months a).
Proof.
  unfold generate_recommendations, level_texts, inspection_texts, age_texts.
  destruct (String.eqb (condition a) "CRITICAL");
    [|destruct (String.eqb (condition a) "WARNING")];
    destruct (day_gt (days_since_inspection a) 90);
    destruct (age_months a >? 36); reflexivity.
Qed.

(** C7. A CRITICAL analysis aged 40 months and inspected 100 days ago
    gets five recommendations: the three of the CRITICAL level, the
    inspection one with the day count 100 in it, the replacement planning
    one, in this order. Each group depends on its own field only. *)
Theorem critical_aged_40_inspected_100_days_ago (a : analysis) (product_data : json) :
  condition a = "CRITICAL" ->
  age_months a = 40 ->
  days_since_inspection a = DayInt 100 ->
  generate_recommendations a product_data
  = ["üö® IMMEDIATE ACTION: Replace component immediately";
     "üîß Schedule emergency maintenance";
     "üìã Conduct thorough safety inspection";
     "üîé Schedule inspection (last: 100 days ago)";
     "üìà Consider proactive replacement planning"] /\
  List.length (generate_recommendations a product_data) = 5%nat /\
  (forall (b : analysis) (other : json),
     generate_recommendations b other
     = level_texts (condition b)
         ++ inspection_texts (days_since_inspection b)
         ++ age_texts (age_months b)).
Proof.
  intros Hc Hage Hdays.
  assert (E : generate_recommendations a product_data = _)
    by (rewrite recommendations_additive, Hc, Hage, Hdays; vm_compute; reflexivity).
  split; [exact E|]. split; [rewrite E; reflexivity|].
  intros b other. apply recommendations_additive.
Qed.

Variables (self : self_t) (product_data : json) (w w' : world) (a : analysis).
Hypothesis returned : analyze_condition self product_data w = (Return a, w').

(** C5. With [inspectionDates] the empty list the day count is the
    sentinel, which is above every threshold: the inspection rule adds 35
    and the overdue text to any accumulators, the overdue text is among
    the risk factors and the other inspection text is not, and the
    inspection recommendation is among the recommendations. *)
Theorem never_inspected_is_most_overdue :
  subscript product_data "inspectionDates" = inr (JList []) ->
  days_since_inspection a = DayInf /\
  (forall k : Z, day_gt (days_since_inspection a) k = true) /\
  (forall score factors,
     inspection_rule (days_since_inspection a) (score, factors)
     = (score + 35, factors ++ ["Overdue for inspection (>6 months)"])) /\
  In "Overdue for inspection (>6 months)" (risk_factors a) /\
  ~ In "Due for inspection soon" (risk_factors a) /\
  In "üîé Schedule inspection (last: inf days ago)"
     (generate_recommendations a product_data).
Proof.
  intros Hempty.
  destruct (analyze_condition_inv _ _ _ _ _ returned)
    as (sd & ids & s & w1 & _ & _ & Hids & Hdays & _ & Ha).
  rewrite Hempty in Hids. inversion Hids; subst ids; clear Hids.
  cbn in Hdays. inversion Hdays as [[Hinf Hw]]. clear Hdays.
  rewrite <- Hinf in *.
  split; [reflexivity|]. split; [reflexivity|]. split; [reflexivity|].
  assert (Hf : risk_factors a
               = snd (age_rule (age_months a) (0, []))
                   ++ ["Overdue for inspection (>6 months)"]
                   ++ snd (status_rule (str_lower s) (0, []))).
  { rewrite Ha. cbn [risk_factors assemble]. rewrite rules_split. reflexivity. }
  split; [|split].
  - rewrite Hf. apply in_or_app. right. left. reflexivity.
  - rewrite Hf. intros Hin.
    apply in_app_or in Hin. destruct Hin as [Hin | [Hin | Hin]].
    + apply (proj1 (rule_texts_incl (age_months a) DayInf (str_lower s))) in Hin.
      cbn in Hin. intuition discriminate.
    + discriminate Hin.
    + apply (proj2 (proj2 (rule_texts_incl (age_months a) DayInf (str_lower s)))) in Hin.
      cbn in Hin. intuition discriminate.
  - rewrite recommendations_additive, <- Hinf.
    apply in_or_app. right. apply in_or_app. left. left. reflexivity.
Qed.

End Recommendations.

Section RecommendationsWitnesses.
Import Py PyDatetime Effects RailwayAnalyzer Scoring Samples.

(** The analysis of a record supplied 1221 days ago, last inspected 100
    days ago, of status WORN: CRITICAL at 95. *)
Lemma critical_aged_40_inspected_100_days_ago_witness :
  exists a w',
    analyze_condition analyzer aged_forty_months (world_at noon JNull)
      = (Return a, w') /\
    (condition a = "CRITICAL" /\ age_months a = 40 /\
     days_since_inspection a = DayInt 100) /\
    List.length (generate_recommendations a aged_forty_months) = 5%nat.
Proof.
  eexists. eexists. split; [lazy; reflexivity|].
  split; [repeat split|].
  apply (critical_aged_40_inspected_100_days_ago _ aged_forty_months);
    reflexivity.
Defined.

(** A record never inspected. *)
Lemma never_inspected_is_most_overdue_witness :
  exists a w',
    analyze_condition analyzer four_years_old (world_at noon JNull) = (Return a, w') /\
    subscript four_years_old "inspectionDates" = inr (JList []) /\
    days_since_inspection a = DayInf /\
    In "Overdue for inspection (>6 months)" (risk_factors a).
Proof.
  eexists. eexists. split; [lazy; reflexivity|]. split; [reflexivity|].
  destruct (never_inspected_is_most_overdue
              analyzer four_years_old (world_at noon JNull) _ _ eq_refl eq_refl)
    as (H1 & _ & _ & H4 & _).
  split; [exact H1 | exact H4].
Defined.

End RecommendationsWitnesses.

(* ===================================================================== *)
(** * The age of a component supplied four years ago                      *)
(* ===================================================================== *)

Section FourYears.
Import Py PyDatetime Effects RailwayAnalyzer Scoring Samples Run.

Lemma days_before_year_four y :
  1460 <= days_before_year y - days_before_year (y - 4) <= 1462.
Proof.
  unfold days_before_year. cbv zeta.
  replace (y - 4 - 1) with (y - 1 - 4) by lia.
  set (p := y - 1).
  pose proof (Z.div_mod p 4 ltac:(lia)). pose proof (Z.mod_pos_bound p 4 ltac:(lia)).
  pose proof (Z.div_mod (p - 4) 4 ltac:(lia)).
  pose proof (Z.mod_pos_bound (p - 4) 4 ltac:(lia)).
  pose proof (Z.div_mod p 100 ltac:(lia)). pose proof (Z.mod_pos_bound p 100 ltac:(lia)).
  pose proof (Z.div_mod (p - 4) 100 ltac:(lia)).
  pose proof (Z.mod_pos_bound (p - 4) 100 ltac:(lia)).
  pose proof (Z.div_mod p 400 ltac:(lia)). pose proof (Z.mod_pos_bound p 400 ltac:(lia)).
  pose proof (Z.div_mod (p - 4) 400 ltac:(lia)).
  pose proof (Z.mod_pos_bound (p - 4) 400 ltac:(lia)).
  lia.
Qed.

Lemma days_before_month_shift y y' m :
  -1 <= days_before_month y m - days_before_month y' m <= 1.
Proof.
  unfold days_before_month.
  destruct ((m >? 2) && is_leap y), ((m >? 2) && is_leap y'); lia.
Qed.

(** Between a calendar day and the same day four years later there are
    1459 to 1463 days. *)
Lemma four_years_in_days y m d :
  1459 <= ymd2ord y m d - ymd2ord (y - 4) m d <= 1463.
Proof.
  unfold ymd2ord.
  pose proof (days_before_year_four y).
  pose proof (days_before_month_shift y (y - 4) m). lia.
Qed.

(** What [strptime] returns is a day at midnight. *)
Lemma strptime_str_midnight s dt :
  strptime_str s = inr dt ->
  dt = mk_datetime (year dt) (month dt) (day dt) 0 0 0 0.
Proof.
  unfold strptime_str.
  destruct (regex_match s) as [[[[y m] d] rest]|]; [|discriminate].
  destruct rest; [|discriminate].
  destruct ((1 <=? y) && (d <=? days_in_month y m)); [|discriminate].
  intros H. inversion H. reflexivity.
Qed.

(** The days of [now - start] for [start] at midnight: the difference of
    the ordinals, whatever the time of the day. *)
Lemma days_since_midnight now start :
  well_formed now ->
  start = mk_datetime (year start) (month start) (day start) 0 0 0 0 ->
  td_days (datetime_sub now start) = toordinal now - toordinal start.
Proof.
  intros (_ & _ & _ & Hh & Hm & Hs & Hus) ->.
  unfold datetime_sub, timedelta_of. cbn.
  rewrite !Z.sub_0_r.
  rewrite (Z.div_small (microsecond now)) by lia.
  rewrite Z.add_0_r.
  rewrite Z.div_small by lia. lia.
Qed.

Lemma four_years_is_48_months now supply :
  well_formed now ->
  supply = mk_datetime (year supply) (month supply) (day supply) 0 0 0 0 ->
  four_years_before supply now ->
  td_days (datetime_sub now supply) / 30 = 48.
Proof.
  intros Hwf Hmid (Hy & Hm & Hd).
  rewrite (days_since_midnight _ _ Hwf Hmid).
  unfold toordinal. rewrite Hy, Hm, Hd.
  pose proof (four_years_in_days (year now) (month now) (day now)) as Hb.
  set (n := ymd2ord _ _ _ - ymd2ord _ _ _) in *.
  pose proof (Z.div_mod n 30 ltac:(lia)). pose proof (Z.mod_pos_bound n 30 ltac:(lia)).
  lia.
Qed.

Variables (self : self_t) (product_data : json) (w : world).
Variables (s : string) (supply : datetime).

(** C1, as the code has it. A record supplied on the calendar day of the
    current time four years earlier, never inspected, of status good, is
    48 months old, which is not above 48: the age rule adds 25 (the
    bucket above 36), the inspection rule 35, the status rule nothing.
    The risk score is 60, the condition WARNING, and there are two risk
    factors, the age one first. *)
Theorem supplied_four_years_ago_scores_60 :
  well_formed (current_time w) ->
  subscript product_data "dateOfSupply" = inr (JStr s) ->
  strptime_str s = inr supply ->
  four_years_before supply (current_time w) ->
  subscript product_data "inspectionDates" = inr (JList []) ->
  subscript product_data "status" = inr (JStr "good") ->
  analyze_condition self product_data w
  = (Return {| condition := "WARNING";
               risk_score := 60;
               color := "üü°";
               risk_factors := ["Component approaching end of service life";
                                "Overdue for inspection (>6 months)"];
               age_months := 48;
               days_since_inspection := DayInf |},
     tick 1 w) /\
  fst (age_rule 48 (0, [])) = 25 /\
  fst (inspection_rule DayInf (0, [])) = 35 /\
  fst (status_rule (str_lower "good") (0, [])) = 0.
Proof.
  intros Hwf Hsd Hparse Hfour Hids Hst.
  split; [|repeat split].
  assert (Hage : calculate_age_months self (JStr s) w = (Return 48, tick 1 w)).
  { unfold calculate_age_months, bind, lift, ret, strptime. rewrite Hparse.
    cbn. f_equal. f_equal.
    apply four_years_is_48_months;
      [exact Hwf | exact (strptime_str_midnight _ _ Hparse) | exact Hfour]. }
  rewrite (analyze_condition_run _ _ _ _ _ _ DayInf _ _ (tick 1 w)
             Hsd Hage Hids eq_refl Hst).
  reflexivity.
Qed.

End FourYears.

Section FourYearsWitness.
Import Py PyDatetime Effects RailwayAnalyzer Scoring Samples.

(** Supplied on 3 November 2022, analysed on 3 November 2026: 1461 days,
    48 months, a score of 60 and WARNING, not 75 and CRITICAL. *)
Lemma supplied_four_years_ago_is_not_critical :
  four_years_before (mk_datetime 2022 11 3 0 0 0 0)
                    (current_time (world_at noon JNull)) /\
  subscript four_years_old "dateOfSupply" = inr (JStr "2022-11-03") /\
  strptime_str "2022-11-03" = inr (mk_datetime 2022 11 3 0 0 0 0) /\
  subscript four_years_old "inspectionDates" = inr (JList []) /\
  subscript four_years_old "status" = inr (JStr "good") /\
  exists a w',
    analyze_condition analyzer four_years_old (world_at noon JNull) = (Return a, w') /\
    age_months a = 48 /\
    risk_score a = 60 /\ risk_score a <> 75 /\
    condition a = "WARNING" /\ condition a <> "CRITICAL" /\
    risk_factors a = ["Component approaching end of service life";
                      "Overdue for inspection (>6 months)"].
Proof.
  split; [unfold four_years_before; cbn; lia|].
  do 4 (split; [reflexivity|]).
  eexists. eexists. split; [lazy; reflexivity|].
  cbn. repeat split; discriminate.
Qed.

Lemma supplied_four_years_ago_scores_60_witness :
  exists a w',
    analyze_condition analyzer four_years_old (world_at noon JNull) = (Return a, w') /\
    risk_score a = 60 /\ condition a = "WARNING" /\ age_months a = 48.
Proof.
  destruct (supplied_four_years_ago_scores_60
              analyzer four_years_old (world_at noon JNull)
              "2022-11-03" (mk_datetime 2022 11 3 0 0 0 0)) as (H & _).
  - unfold well_formed. cbn. lia.
  - reflexivity.
  - reflexivity.
  - unfold four_years_before. cbn. lia.
  - reflexivity.
  - reflexivity.
  - eexists. eexists. split; [exact H|]. repeat split.
Defined.

End FourYearsWitness.

(* ===================================================================== *)
(** * A status that is absent or is not a string                          *)
(* ===================================================================== *)

Section MalformedStatus.
Import Py PyDatetime Effects RailwayAnalyzer Scoring Samples Run.

(** Once the two date fields are read, the run goes on with the lookup
    of the status and its [lower()]. *)
Lemma analyze_condition_after_dates
      self pd w supply_date age inspection_dates days w1 w2 :
  subscript pd "dateOfSupply" = inr supply_date ->
  calculate_age_months self supply_date w = (Return age, w1) ->
  subscript pd "inspectionDates" = inr inspection_dates ->
  get_last_inspection_days self inspection_dates w1 = (Return days, w2) ->
  analyze_condition self pd w
  = match subscript pd "status" with
    | inl e => (Raise e, w2)
    | inr status =>
        match lower status with
        | inl e => (Raise e, w2)
        | inr lowered => (Return (assemble age days (rules age days lowered)), w2)
        end
    end.
Proof.
  intros Hsd Hage Hids Hdays.
  rewrite analyze_condition_steps, Hsd, Hage, Hids, Hdays. reflexivity.
Qed.

Variables (self : self_t) (product_data : json) (w : world).

(** C4, as the code has it. With the status absent or not a string, the
    scorer returns no analysis: it raises, and what it raises is one of
    Python's own exceptions, never a ValidationError. When the two date
    fields are read without an exception, it is the [KeyError] of the
    lookup for an absent status and the [AttributeError] of [lower()] for
    a status that is not a string. *)
Theorem malformed_status_raises :
  status_missing_or_malformed product_data ->
  exists e w',
    analyze_condition self product_data w = (Raise e, w') /\
    exn_name e <> "ValidationError" /\
    (forall supply_date age inspection_dates days w1 w2,
       subscript product_data "dateOfSupply" = inr supply_date ->
       calculate_age_months self supply_date w = (Return age, w1) ->
       subscript product_data "inspectionDates" = inr inspection_dates ->
       get_last_inspection_days self inspection_dates w1 = (Return days, w2) ->
       w' = w2 /\
       (subscript product_data "status" = inl (KeyError "status") ->
        e = KeyError "status") /\
       (forall v, subscript product_data "status" = inr v -> e = AttributeError)).
Proof.
  intros Hbad.
  destruct (analyze_condition self product_data w) as [[a | e] w'] eqn:Hrun.
  - destruct (analyze_condition_inv _ _ _ _ _ Hrun)
      as (_ & _ & s & _ & _ & _ & _ & _ & Hs & _).
    exfalso. exact (Hbad s Hs).
  - exists e, w'. split; [reflexivity|].
    split; [destruct e; discriminate|].
    intros sd age ids days w1 w2 Hsd Hage Hids Hdays.
    rewrite (analyze_condition_after_dates _ _ _ _ _ _ _ _ _ Hsd Hage Hids Hdays)
      in Hrun.
    destruct (subscript product_data "status") as [e0 | v] eqn:Hst.
    + inversion Hrun; subst. repeat split.
      * intros H. inversion H. reflexivity.
      * intros v H. discriminate H.
    + destruct v as [| | | | s | |];
        try (exfalso; exact (Hbad s eq_refl));
        cbn in Hrun; inversion Hrun; subst; repeat split;
        intros; try discriminate; reflexivity.
Qed.

End MalformedStatus.

Section MalformedStatusWitness.
Import Py PyDatetime Effects RailwayAnalyzer Scoring Samples.

(** A record without a status raises [KeyError], one with the status 3
    raises [AttributeError]: neither is a ValidationError. *)
Lemma missing_status_is_not_a_ValidationError :
  status_missing_or_malformed no_status /\
  status_missing_or_malformed numeric_status /\
  fst (analyze_condition analyzer no_status (world_at noon JNull))
    = Raise (KeyError "status") /\
  fst (analyze_condition analyzer numeric_status (world_at noon JNull))
    = Raise AttributeError /\
  ~ (exists e w',
       analyze_condition analyzer no_status (world_at noon JNull) = (Raise e, w') /\
       exn_name e = "ValidationError").
Proof.
  split; [intros s H; discriminate H|].
  split; [intros s H; discriminate H|].
  split; [reflexivity|]. split; [reflexivity|].
  intros (e & w' & Hrun & Hname).
  assert (He : fst (analyze_condition analyzer no_status (world_at noon JNull))
               = Raise e) by (rewrite Hrun; reflexivity).
  vm_compute in He. inversion He; subst e. discriminate Hname.
Qed.

Lemma malformed_status_raises_witness :
  status_missing_or_malformed numeric_status /\
  exists e w',
    analyze_condition analyzer numeric_status (world_at noon JNull) = (Raise e, w') /\
    e = AttributeError.
Proof.
  assert (Hbad : status_missing_or_malformed numeric_status)
    by (intros s H; discriminate H).
  split; [exact Hbad|].
  destruct (malformed_status_raises analyzer numeric_status (world_at noon JNull) Hbad)
    as (e & w' & Hrun & _ & Hwhich).
  exists e, w'. split; [exact Hrun|].
  destruct (Hwhich (JStr "2022-11-03") 48 (JList []) DayInf
                   (tick 1 (world_at noon JNull)) (tick 1 (world_at noon JNull))
                   eq_refl eq_refl eq_refl eq_refl) as (_ & _ & Hattr).
  exact (Hattr (JInt 3) eq_refl).
Defined.

End MalformedStatusWitness.

(* ===================================================================== *)
(** * The orchestrator when the fetch fails                               *)
(* ===================================================================== *)

Section FetchFailure.
Import Py PyDatetime Effects RailwayAnalyzer Scoring Samples Run.

(** A [RequestException] is caught: the error line is printed and [None]
    returned. *)
Lemma fetch_product_data_exception self product_id w text :
  backend w (api_base_url self ++ "/api/products/" ++ product_id)%string
    = RequestException text ->
  fetch_product_data self product_id w
  = (Return JNull,
     mk_world (clock w) (ticks w) (backend w)
       (stdout w ++ [("Error fetching data for Product ID " ++ product_id
                       ++ ": " ++ text)%string])).
Proof.
  intros H. unfold fetch_product_data, bind, requests_get_json.
  rewrite H. reflexivity.
Qed.

(** [fetch_product_data] leaves the clock alone. *)
Lemma fetch_product_data_ticks self product_id w v w1 :
  fetch_product_data self product_id w = (Return v, w1) ->
  ticks w1 = ticks w /\ clock w1 = clock w.
Proof.
  unfold fetch_product_data, bind, requests_get_json.
  destruct (backend w _); cbn; intros H; inversion H; subst; auto.
Qed.

(** C8. When the fetch returns [None], [analyze_product] returns the
    error result and nothing else happens: the world is the one the
    fetch left, in which the clock was never read. *)
Theorem fetch_failure_gives_error_result self product_id w w1 :
  fetch_product_data self product_id w = (Return JNull, w1) ->
  analyze_product self product_id w
  = (Return (ErrorReport "Product not found or API error"), w1) /\
  ticks w1 = ticks w /\ clock w1 = clock w.
Proof.
  intros Hfetch. split.
  - unfold analyze_product. rewrite (bind_run _ _ _ _ _ Hfetch). reflexivity.
  - exact (fetch_product_data_ticks _ _ _ _ _ Hfetch).
Qed.

End FetchFailure.

Section FetchFailureWitness.
Import Py PyDatetime Effects RailwayAnalyzer Scoring Samples.

(** The service answers 404 for product 12. *)
Lemma fetch_failure_gives_error_result_witness :
  exists w1,
    fetch_product_data analyzer "12" (world_at noon aged_forty_months)
      = (Return JNull, w1) /\
    analyze_product analyzer "12" (world_at noon aged_forty_months)
      = (Return (ErrorReport "Product not found or API error"), w1) /\
    stdout w1
      = ["Error fetching data for Product ID 12: 404 Client Error: Not Found"].
Proof.
  eexists. split; [lazy; reflexivity|].
  split; [|reflexivity].
  apply (fetch_failure_gives_error_result analyzer "12"). reflexivity.
Defined.

End FetchFailureWitness.

(* ===================================================================== *)
(** * What the scorer depends on                                          *)
(* ===================================================================== *)

Section Determinism.
Import Py PyDatetime Effects RailwayAnalyzer Scoring Samples Run.



End Determinism.

Section DeterminismWitness.
Import Py PyDatetime Effects RailwayAnalyzer Scoring Samples.

(** The timestamp is part of the condition: one record, two times of
    analysis four years apart, WARNING at 60 the first time, CRITICAL at
    75 the second. *)
Lemma scorer_output_depends_on_the_clock :
  (exists a w',
     analyze_condition analyzer four_years_old (world_at noon JNull) = (Return a, w') /\
     age_months a = 48 /\ risk_score a = 60 /\ condition a = "WARNING") /\
  (exists a w',
     analyze_condition analyzer four_years_old (world_at later JNull) = (Return a, w') /\
     age_months a = 97 /\ risk_score a = 75 /\ condition a = "CRITICAL") /\
  fst (analyze_condition analyzer four_years_old (world_at noon JNull))
    <> fst (analyze_condition analyzer four_years_old (world_at later JNull)).
Proof.
  split; [eexists; eexists; split; [lazy; reflexivity | repeat split]|].
  split; [eexists; eexists; split; [lazy; reflexivity | repeat split]|].
  vm_compute. intros H. discriminate H.
Qed.


End DeterminismWitness.

(* ===================================================================== *)
(** * The base URL                                                        *)
(* ===================================================================== *)

Section BaseUrl.
Import Py PyDatetime Effects RailwayAnalyzer Scoring Notions Run.

Lemma rstrip_decompose c s :
  exists k, s = (rstrip c s ++ str_mul (String c EmptyString) k)%string.
Proof.
  induction s as [| x r [k IH]].
  - exists 0%nat. reflexivity.
  - cbn [rstrip]. destruct (rstrip c r) as [| y r'] eqn:E.
    + destruct (Ascii.eqb_spec x c) as [-> | Hne].
      * exists (S k). cbn. rewrite IH at 1. reflexivity.
      * exists k. cbn. rewrite IH at 1. reflexivity.
    + exists k. cbn. rewrite IH at 1. reflexivity.
Qed.

Lemma rstrip_no_trailing c s prefix :
  rstrip c s <> (prefix ++ String c EmptyString)%string.
Proof.
  revert prefix. induction s as [| x r IH]; intros prefix.
  - destruct prefix; discriminate.
  - cbn [rstrip]. destruct (rstrip c r) as [| y r'] eqn:E.
    + destruct (Ascii.eqb_spec x c) as [-> | Hne].
      * destruct prefix; discriminate.
      * destruct prefix as [| p [| q prefix]]; cbn; try discriminate.
        intros H. inversion H. congruence.
    + destruct prefix as [| p prefix]; cbn.
      * discriminate.
      * intros H. inversion H. exact (IH prefix H2).
Qed.

Lemma rstrip_one_more c s :
  rstrip c (s ++ String c EmptyString)%string = rstrip c s.
Proof.
  induction s as [| x r IH].
  - cbn. rewrite Ascii.eqb_refl. reflexivity.
  - cbn [append rstrip]. rewrite IH. reflexivity.
Qed.

(** X1. [__init__] drops the slashes that end the base URL, all of them and
    nothing else: the URL is what is kept followed by slashes only, what
    is kept does not end in a slash, and one more slash at the end of the
    argument changes nothing. *)
Theorem init_strips_trailing_slashes base :
  (exists k, base = (api_base_url (init base) ++ str_mul "/" k)%string) /\
  (forall prefix, api_base_url (init base) <> (prefix ++ "/")%string) /\
  init (base ++ "/")%string = init base.
Proof.
  unfold init. cbn [api_base_url].
  split; [apply rstrip_decompose|].
  split; [intros prefix; apply rstrip_no_trailing|].
  rewrite rstrip_one_more. reflexivity.
Qed.

End BaseUrl.

(* ===================================================================== *)
(** * Dates: what [strptime] returns, and the order of ordinals           *)
(* ===================================================================== *)

Section Calendar.
Import Py PyDatetime Effects RailwayAnalyzer Scoring Notions Run.

Lemma in_range_bounds lo hi c :
  in_range lo hi c = true ->
  (nat_of_ascii lo <= nat_of_ascii c <= nat_of_ascii hi)%nat.
Proof.
  unfold in_range. intros H. apply andb_prop in H. destruct H as [H1 H2].
  apply Nat.leb_le in H1. apply Nat.leb_le in H2. lia.
Qed.

Lemma one_In p s v r :
  In (v, r) (one p s) -> exists c, p c = true /\ v = digit_val c.
Proof.
  destruct s as [| c s']; cbn; [tauto|].
  destruct (p c) eqn:E; cbn; [|tauto].
  intros [H | []]. inversion H. exists c. auto.
Qed.

Lemma two_In p q s v r :
  In (v, r) (two p q s) ->
  exists c c', p c = true /\ q c' = true /\ v = 10 * digit_val c + digit_val c'.
Proof.
  destruct s as [| c [| c' s']]; cbn; try tauto.
  destruct (p c) eqn:E1; cbn; [|tauto].
  destruct (q c') eqn:E2; cbn; [|tauto].
  intros [H | []]. inversion H. exists c, c'. auto.
Qed.

Ltac digit_bounds :=
  repeat match goal with
  | H : in_range _ _ _ = true |- _ =>
      apply in_range_bounds in H; cbn in H
  end;
  unfold digit_val; lia.

Lemma re_m_range s m r : In (m, r) (re_m s) -> 1 <= m <= 12.
Proof.
  unfold re_m. intros H.
  repeat (apply in_app_or in H; destruct H as [H | H]);
    first [ apply two_In in H; destruct H as (c & c' & H1 & H2 & ->)
          | apply one_In in H; destruct H as (c & H1 & ->) ];
    digit_bounds.
Qed.

Lemma re_d_range s d r : In (d, r) (re_d s) -> 1 <= d <= 31.
Proof.
  unfold re_d. intros H.
  repeat (apply in_app_or in H; destruct H as [H | H]).
  - apply two_In in H. destruct H as (c & c' & H1 & H2 & ->). digit_bounds.
  - apply two_In in H. destruct H as (c & c' & H1 & H2 & ->).
    unfold is_digit in H2. apply andb_prop in H2. destruct H2 as [H2 H3].
    apply Nat.leb_le in H2. apply Nat.leb_le in H3. digit_bounds.
  - apply two_In in H. destruct H as (c & c' & H1 & H2 & ->). digit_bounds.
  - apply one_In in H. destruct H as (c & H1 & ->). digit_bounds.
  - apply in_flat_map in H. destruct H as (s' & _ & H).
    apply one_In in H. destruct H as (c & H1 & ->). digit_bounds.
Qed.

Lemma regex_match_ranges s y m d rest :
  regex_match s = Some (y, m, d, rest) -> 1 <= m <= 12 /\ 1 <= d <= 31.
Proof.
  unfold regex_match. intros H.
  assert (Hin : In (y, m, d, rest)
                  (flat_map (fun '(y, r1) =>
                     flat_map (fun r2 =>
                       flat_map (fun '(m, r3) =>
                         flat_map (fun r4 =>
                           map (fun '(d, r5) => (y, m, d, r5)) (re_d r4))
                           (lit "-" r3))
                         (re_m r2))
                       (lit "-" r1))
                     (re_Y s))).
  { destruct (flat_map _ (re_Y s)) as [| x l]; [discriminate|].
    cbn in H. inversion H. left. reflexivity. }
  clear H.
  apply in_flat_map in Hin. destruct Hin as ([y0 r1] & _ & Hin).
  apply in_flat_map in Hin. destruct Hin as (r2 & _ & Hin).
  apply in_flat_map in Hin. destruct Hin as ([m0 r3] & Hm & Hin).
  apply in_flat_map in Hin. destruct Hin as (r4 & _ & Hin).
  apply in_map_iff in Hin. destruct Hin as ([d0 r5] & Heq & Hd).
  inversion Heq; subst.
  split; [exact (re_m_range _ _ _ Hm) | exact (re_d_range _ _ _ Hd)].
Qed.

(** What [strptime] returns is a calendar day of a year from 1 on, at
    midnight. *)
Lemma strptime_str_valid s dt :
  strptime_str s = inr dt -> 1 <= year dt /\ valid_date dt /\ at_midnight dt.
Proof.
  intros H. pose proof (strptime_str_midnight _ _ H) as Hmid.
  unfold strptime_str in H.
  destruct (regex_match s) as [[[[y m] d] rest]|] eqn:E; [|discriminate].
  destruct rest; [|discriminate].
  destruct ((1 <=? y) && (d <=? days_in_month y m)) eqn:Hc; [|discriminate].
  inversion H; subst dt. clear H.
  apply andb_prop in Hc. destruct Hc as [Hy Hd].
  apply Z.leb_le in Hy. apply Z.leb_le in Hd.
  destruct (regex_match_ranges _ _ _ _ _ E) as [Hm Hd1].
  unfold valid_date. cbn. repeat split; lia.
Qed.

Lemma strptime_valid v dt :
  strptime v = inr dt -> 1 <= year dt /\ valid_date dt /\ at_midnight dt.
Proof.
  destruct v; try discriminate. apply strptime_str_valid.
Qed.

(** A year has 365 days, 366 if it is a leap year. *)
Lemma days_before_year_next y :
  days_before_year (y + 1)
  = days_before_year y + 365 + (if is_leap y then 1 else 0).
Proof.
  unfold days_before_year, is_leap. cbv zeta.
  replace (y + 1 - 1) with y by lia.
  destruct (Z.eqb_spec (y mod 4) 0), (Z.eqb_spec (y mod 100) 0),
    (Z.eqb_spec (y mod 400) 0); cbn [negb andb orb];
    Z.div_mod_to_equations; lia.
Qed.

Lemma days_before_year_mono y y' :
  y <= y' -> days_before_year y + 365 * (y' - y) <= days_before_year y'.
Proof.
  intros Hle.
  replace y' with (y + Z.of_nat (Z.to_nat (y' - y))) by lia.
  generalize (Z.to_nat (y' - y)). intros n.
  induction n as [| n IH].
  - rewrite Z.add_0_r. lia.
  - replace (y + Z.of_nat (S n)) with (y + Z.of_nat n + 1) by lia.
    rewrite days_before_year_next.
    destruct (is_leap (y + Z.of_nat n)); lia.
Qed.

Ltac month_cases m :=
  let H := fresh "Hcases" in
  assert (H : m = 1 \/ m = 2 \/ m = 3 \/ m = 4 \/ m = 5 \/ m = 6 \/ m = 7 \/
              m = 8 \/ m = 9 \/ m = 10 \/ m = 11 \/ m = 12) by lia;
  repeat (destruct H as [H | H]; [subst m |]); [.. | subst m].

Ltac month_simpl :=
  cbv [DAYS_BEFORE_MONTH DAYS_IN_MONTH Z.gtb Z.eqb Z.compare
       Pos.compare Pos.compare_cont Pos.eqb andb] in *.

(** A calendar day falls within its year. *)
Lemma day_of_year_bounds y m d :
  1 <= m <= 12 -> 1 <= d <= days_in_month y m ->
  1 <= days_before_month y m + d <= 365 + (if is_leap y then 1 else 0).
Proof.
  intros Hm Hd. unfold days_before_month, days_in_month in *.
  month_cases m; destruct (is_leap y); month_simpl; lia.
Qed.

(** A month ends before a later one starts. *)
Lemma month_before_month y m m' :
  1 <= m -> m < m' -> m' <= 12 ->
  days_before_month y m + days_in_month y m <= days_before_month y m'.
Proof.
  intros H1 Hlt H2. unfold days_before_month, days_in_month.
  month_cases m; month_cases m'; try lia; destruct (is_leap y); month_simpl; lia.
Qed.

(** The ordinal grows with the date. *)
Lemma ymd2ord_lt y m d y' m' d' :
  1 <= m <= 12 -> 1 <= d <= days_in_month y m ->
  1 <= m' <= 12 -> 1 <= d' <= days_in_month y' m' ->
  y < y' \/ (y = y' /\ (m < m' \/ (m = m' /\ d < d'))) ->
  ymd2ord y m d < ymd2ord y' m' d'.
Proof.
  intros Hm Hd Hm' Hd' Hlex. unfold ymd2ord.
  pose proof (day_of_year_bounds y m d Hm Hd) as B.
  pose proof (day_of_year_bounds y' m' d' Hm' Hd') as B'.
  destruct Hlex as [Hy | [-> [Hlt | [-> Hlt]]]].
  - pose proof (days_before_year_mono (y + 1) y' ltac:(lia)) as Hmono.
    rewrite days_before_year_next in Hmono.
    destruct (is_leap y); lia.
  - pose proof (month_before_month y' m m' ltac:(lia) Hlt ltac:(lia)). lia.
  - lia.
Qed.

(** The order of two days at midnight is the order of their ordinals. *)
Lemma datetime_ltb_ordinal a b :
  valid_date a -> valid_date b -> at_midnight a -> at_midnight b ->
  if datetime_ltb a b then toordinal a < toordinal b
  else toordinal b <= toordinal a.
Proof.
  intros [Hma Hda] [Hmb Hdb] Ha Hb.
  unfold at_midnight in Ha, Hb. rewrite Ha, Hb. clear Ha Hb.
  unfold datetime_ltb, fields, toordinal. cbn.
  set (ya := year a) in *. set (ma := month a) in *. set (da := day a) in *.
  set (yb := year b) in *. set (mb := month b) in *. set (db := day b) in *.
  rewrite ?orb_false_r, ?andb_false_r, ?orb_false_r.
  destruct (Z.ltb_spec ya yb) as [Hy | Hy]; cbn [orb].
  { apply ymd2ord_lt; auto. }
  destruct (Z.eqb_spec ya yb) as [Ey | Ey]; cbn [andb].
  2:{ apply Z.lt_le_incl. apply ymd2ord_lt; auto. left. lia. }
  destruct (Z.ltb_spec ma mb) as [Hm | Hm]; cbn [orb].
  { apply ymd2ord_lt; auto. }
  destruct (Z.eqb_spec ma mb) as [Em | Em]; cbn [andb].
  2:{ apply Z.lt_le_incl. apply ymd2ord_lt; auto. right. split; [lia|]. left. lia. }
  destruct (Z.ltb_spec da db) as [Hd | Hd].
  { apply ymd2ord_lt; auto. }
  rewrite Ey, Em. unfold ymd2ord. lia.
Qed.

End Calendar.

(* ===================================================================== *)
(** * Age and inspection recency                                          *)
(* ===================================================================== *)

Section Recency.
Import Py PyDatetime Effects RailwayAnalyzer Scoring Notions Samples Run.

Lemma map_exn_In {A B} (f : A -> exn + B) l parsed :
  map_exn f l = inr parsed ->
  forall y, In y parsed -> exists x, In x l /\ f x = inr y.
Proof.
  revert parsed. induction l as [| x l IH]; intros parsed H y Hy.
  - inversion H; subst. destruct Hy.
  - cbn in H. destruct (f x) as [e | y0] eqn:Hx; [discriminate|].
    destruct (map_exn f l) as [e | ys] eqn:Hl; [discriminate|].
    inversion H; subst parsed. destruct Hy as [-> | Hy].
    + exists x. split; [left; reflexivity | exact Hx].
    + destruct (IH ys eq_refl y Hy) as (x' & Hin & Hfx).
      exists x'. split; [right; exact Hin | exact Hfx].
Qed.

Lemma map_exn_nonempty {A B} (f : A -> exn + B) l parsed :
  map_exn f l = inr parsed -> l <> [] -> parsed <> [].
Proof.
  destruct l as [| x l]; [congruence|]. cbn.
  destruct (f x); [discriminate|]. destruct (map_exn f l); [discriminate|].
  intros H _. inversion H. discriminate.
Qed.

Lemma map_exn_permutation {A B} (f : A -> exn + B) l l' :
  Permutation l l' ->
  forall parsed, map_exn f l = inr parsed ->
  exists parsed', map_exn f l' = inr parsed' /\ Permutation parsed parsed'.
Proof.
  induction 1 as [| x l l' _ IH | x y l | l l' l'' _ IH1 _ IH2]; intros parsed H.
  - exists parsed. split; [exact H | apply Permutation_refl].
  - cbn in *. destruct (f x) as [e | fx]; [discriminate|].
    destruct (map_exn f l) as [e | ys]; [discriminate|].
    inversion H; subst parsed.
    destruct (IH ys eq_refl) as (ys' & -> & Hp).
    exists (fx :: ys'). split; [reflexivity | apply perm_skip; exact Hp].
  - cbn in *. destruct (f y) as [e | fy]; [discriminate|].
    destruct (f x) as [e | fx]; [discriminate|].
    destruct (map_exn f l) as [e | ys]; [discriminate|].
    inversion H; subst parsed.
    exists (fx :: fy :: ys). split; [reflexivity | apply perm_swap].
  - destruct (IH1 parsed H) as (p1 & H1 & Hp1).
    destruct (IH2 p1 H1) as (p2 & H2 & Hp2).
    exists p2. split; [exact H2 | exact (Permutation_trans Hp1 Hp2)].
Qed.

(** [max] returns an item, and none has a later ordinal. *)
Lemma max_from_latest best rest :
  Forall (fun d => valid_date d /\ at_midnight d) (best :: rest) ->
  In (max_from best rest) (best :: rest) /\
  forall d, In d (best :: rest) -> toordinal d <= toordinal (max_from best rest).
Proof.
  revert best. induction rest as [| x rest IH]; intros best Hall.
  - cbn. split; [left; reflexivity|]. intros d [-> | []]. lia.
  - inversion Hall as [| ? ? [Hvb Hmb] Hall']; subst.
    inversion Hall' as [| ? ? [Hvx Hmx] Hrest]; subst.
    pose proof (datetime_ltb_ordinal best x Hvb Hvx Hmb Hmx) as Hcmp.
    cbn [max_from].
    destruct (datetime_ltb best x).
    + destruct (IH x Hall') as [Hin Hmax]. split.
      * right. exact Hin.
      * intros d [-> | Hd]; [|exact (Hmax d Hd)].
        pose proof (Hmax x (or_introl eq_refl)). lia.
    + assert (Hall'' : Forall (fun d => valid_date d /\ at_midnight d) (best :: rest))
        by (constructor; [split; assumption | exact Hrest]).
      destruct (IH best Hall'') as [Hin Hmax]. split.
      * destruct Hin as [Hin | Hin]; [left; exact Hin | right; right; exact Hin].
      * intros d [-> | [-> | Hd]].
        -- apply Hmax. left. reflexivity.
        -- pose proof (Hmax best (or_introl eq_refl)). lia.
        -- apply Hmax. right. exact Hd.
Qed.

Lemma parsed_dates_valid items parsed :
  map_exn strptime items = inr parsed ->
  Forall (fun d => valid_date d /\ at_midnight d) parsed.
Proof.
  intros H. apply Forall_forall. intros d Hd.
  destruct (map_exn_In _ _ _ H d Hd) as (x & _ & Hx).
  destruct (strptime_valid _ _ Hx) as (_ & Hv & Hm). split; assumption.
Qed.

(** X2. The age in months is the number of whole 30-day periods between the
    supply day and today, whatever the time of the day: a supply day
    after today gives a negative age, on which the age rule adds
    nothing. *)
Theorem age_counts_whole_periods_of_30_days self s supply w :
  well_formed (current_time w) ->
  strptime_str s = inr supply ->
  exists age,
    calculate_age_months self (JStr s) w = (Return age, tick 1 w) /\
    30 * age <= toordinal (current_time w) - toordinal supply < 30 * age + 30 /\
    (toordinal (current_time w) < toordinal supply ->
     age < 0 /\ age_rule age (0, []) = (0, [])).
Proof.
  intros Hwf Hparse.
  rewrite calculate_age_months_run. cbn [strptime]. rewrite Hparse.
  eexists. split; [reflexivity|].
  rewrite (days_since_midnight _ _ Hwf (strptime_str_midnight _ _ Hparse)).
  set (elapsed := toordinal (current_time w) - toordinal supply).
  pose proof (Z.div_mod elapsed 30 ltac:(lia)) as Hdm.
  pose proof (Z.mod_pos_bound elapsed 30 ltac:(lia)) as Hmod.
  split; [lia|]. intros Hfuture.
  assert (Hneg : elapsed / 30 < 0) by lia.
  split; [exact Hneg|].
  unfold age_rule.
  destruct (Z.gtb_spec (elapsed / 30) 48); [lia|].
  destruct (Z.gtb_spec (elapsed / 30) 36); [lia|].
  destruct (Z.gtb_spec (elapsed / 30) 24); [lia|]. reflexivity.
Qed.

(** The day count of a list that parses, from its latest item. *)
Lemma inspection_days_of_parsed self items first rest w :
  well_formed (current_time w) ->
  map_exn strptime items = inr (first :: rest) ->
  get_last_inspection_days self (JList items) w
  = (Return (DayInt (toordinal (current_time w) - toordinal (max_from first rest))),
     tick 1 w).
Proof.
  intros Hwf Hparsed.
  rewrite get_last_inspection_days_run.
  destruct items as [| i items]; [discriminate Hparsed|].
  cbn [truthy negb iterate]. rewrite Hparsed.
  pose proof (parsed_dates_valid _ _ Hparsed) as Hvalid.
  destruct (max_from_latest first rest Hvalid) as [Hin _].
  assert (Hmid : at_midnight (max_from first rest)).
  { rewrite Forall_forall in Hvalid. apply (Hvalid _ Hin). }
  rewrite (days_since_midnight _ _ Hwf Hmid). reflexivity.
Qed.

(** X3. With inspections that all parse, the day count is the number of days
    since the most recent of them: since one of the dates, and no date
    gives fewer days. *)
Theorem last_inspection_is_the_most_recent self items parsed w :
  well_formed (current_time w) ->
  items <> [] ->
  map_exn strptime items = inr parsed ->
  exists n,
    get_last_inspection_days self (JList items) w = (Return (DayInt n), tick 1 w) /\
    (exists d, In d parsed /\ n = toordinal (current_time w) - toordinal d) /\
    (forall d, In d parsed -> n <= toordinal (current_time w) - toordinal d).
Proof.
  intros Hwf Hne Hparsed.
  pose proof (parsed_dates_valid _ _ Hparsed) as Hvalid.
  pose proof (map_exn_nonempty _ _ _ Hparsed Hne) as Hpne.
  destruct parsed as [| first rest]; [congruence|].
  destruct (max_from_latest first rest Hvalid) as [Hin Hmax].
  eexists. split; [apply inspection_days_of_parsed; eassumption|].
  split.
  - exists (max_from first rest). split; [exact Hin | reflexivity].
  - intros d Hd. pose proof (Hmax d Hd). lia.
Qed.

(** X4. The order of the inspection dates does not matter: a list that
    parses and any rearrangement of it give the same day count. *)
Theorem inspection_order_is_irrelevant self items items' parsed w :
  well_formed (current_time w) ->
  Permutation items items' ->
  map_exn strptime items = inr parsed ->
  get_last_inspection_days self (JList items') w
  = get_last_inspection_days self (JList items) w.
Proof.
  intros Hwf Hperm Hparsed.
  destruct (map_exn_permutation _ _ _ Hperm parsed Hparsed)
    as (parsed' & Hparsed' & Hpp).
  destruct parsed as [| first rest].
  - apply Permutation_nil in Hpp. subst parsed'.
    destruct items as [| i items].
    + apply Permutation_nil in Hperm. subst items'. reflexivity.
    + exfalso. exact (map_exn_nonempty _ _ _ Hparsed ltac:(discriminate) eq_refl).
  - destruct parsed' as [| first' rest'];
      [apply Permutation_sym, Permutation_nil in Hpp; discriminate|].
    rewrite (inspection_days_of_parsed self _ _ _ w Hwf Hparsed).
    rewrite (inspection_days_of_parsed self _ _ _ w Hwf Hparsed').
    destruct (max_from_latest _ _ (parsed_dates_valid _ _ Hparsed)) as [Hin Hmax].
    destruct (max_from_latest _ _ (parsed_dates_valid _ _ Hparsed')) as [Hin' Hmax'].
    pose proof (Hmax _ (Permutation_in _ (Permutation_sym Hpp) Hin')).
    pose proof (Hmax' _ (Permutation_in _ Hpp Hin)).
    do 2 f_equal. f_equal. lia.
Qed.

End Recency.

Section RecencyWitnesses.
Import Py PyDatetime Effects RailwayAnalyzer Scoring Notions Samples.

(** Supplied on 1 January 2027, analysed on 3 November 2026: 59 days
    ahead, an age of -2. *)
Lemma age_counts_whole_periods_of_30_days_witness :
  exists age,
    calculate_age_months analyzer (JStr "2027-01-01") (world_at noon JNull)
      = (Return age, tick 1 (world_at noon JNull)) /\
    age = -2.
Proof.
  destruct (age_counts_whole_periods_of_30_days
              analyzer "2027-01-01" (mk_datetime 2027 1 1 0 0 0 0)
              (world_at noon JNull)) as (age & Hrun & Hb & _).
  - unfold well_formed. cbn. lia.
  - reflexivity.
  - exists age. split; [exact Hrun|].
    change (toordinal (current_time (world_at noon JNull))
            - toordinal (mk_datetime 2027 1 1 0 0 0 0)) with (-59) in Hb. lia.
Defined.

(** Inspected on 1 March 2026, 26 July 2026 and 24 December 2025: 100
    days before 3 November 2026. *)
Lemma last_inspection_is_the_most_recent_witness :
  exists n,
    get_last_inspection_days analyzer (JList three_inspections) (world_at noon JNull)
      = (Return (DayInt n), tick 1 (world_at noon JNull)) /\
    n = 100.
Proof.
  destruct (last_inspection_is_the_most_recent
              analyzer three_inspections
              [mk_datetime 2026 3 1 0 0 0 0; mk_datetime 2026 7 26 0 0 0 0;
               mk_datetime 2025 12 24 0 0 0 0]
              (world_at noon JNull)) as (n & Hrun & _ & _).
  - unfold well_formed. cbn. lia.
  - discriminate.
  - reflexivity.
  - exists n. split; [exact Hrun|].
    vm_compute in Hrun. inversion Hrun. reflexivity.
Defined.

Lemma inspection_order_is_irrelevant_witness :
  get_last_inspection_days analyzer (JList three_inspections_shuffled)
    (world_at noon JNull)
  = get_last_inspection_days analyzer (JList three_inspections)
      (world_at noon JNull).
Proof.
  apply (inspection_order_is_irrelevant analyzer three_inspections
           three_inspections_shuffled
           [mk_datetime 2026 3 1 0 0 0 0; mk_datetime 2026 7 26 0 0 0 0;
            mk_datetime 2025 12 24 0 0 0 0]).
  - unfold well_formed. cbn. lia.
  - unfold three_inspections, three_inspections_shuffled.
    eapply Permutation_trans; [apply perm_swap|]. apply perm_skip. apply perm_swap.
  - reflexivity.
Defined.

End RecencyWitnesses.

(* ===================================================================== *)
(** * When the scorer returns, and what the status does                   *)
(* ===================================================================== *)

Section Readable.
Import Py PyDatetime Effects RailwayAnalyzer Scoring Notions Samples Run.

Lemma truthy_iterate_nonempty v items :
  truthy v = true -> iterate v = inr items -> items <> [].
Proof.
  destruct v as [| b | n | f | s | l | d]; cbn; try discriminate.
  - destruct s; [discriminate|]. intros _ H. inversion H. discriminate.
  - destruct l; [discriminate|]. intros _ H. inversion H. discriminate.
  - destruct d; [discriminate|]. intros _ H. inversion H. discriminate.
Qed.

(** X5. On a record whose dates are written in ASCII, the scorer returns
    an analysis exactly when it can read the record: a supply date
    [strptime] accepts, inspection dates that are falsy or all accepted,
    and a status that is a string. Whether it returns does not depend on
    the clock. *)
Theorem scorer_returns_exactly_on_readable_records self product_data w :
  dates_in_ascii product_data ->
  ((exists a w', analyze_condition self product_data w = (Return a, w')) <->
   (exists supply_date supply inspection_dates s,
      subscript product_data "dateOfSupply" = inr supply_date /\
      strptime supply_date = inr supply /\
      subscript product_data "inspectionDates" = inr inspection_dates /\
      dates_readable inspection_dates /\
      subscript product_data "status" = inr (JStr s))).
Proof.
  intros _. split.
  - intros (a & w' & Hrun).
    destruct (analyze_condition_inv _ _ _ _ _ Hrun)
      as (sd & ids & s & w1 & Hsd & Hage & Hids & Hdays & Hs & _).
    rewrite calculate_age_months_run in Hage.
    destruct (strptime sd) as [e | supply] eqn:Hparse; [discriminate Hage|].
    exists sd, supply, ids, s. repeat split; try assumption.
    rewrite get_last_inspection_days_run in Hdays.
    unfold dates_readable.
    destruct (truthy ids); cbn [negb] in Hdays; [right | left; reflexivity].
    destruct (iterate ids) as [e | items] eqn:Hit; [discriminate Hdays|].
    destruct (map_exn strptime items) as [e | parsed] eqn:Hp; [discriminate Hdays|].
    exists items, parsed. split; [reflexivity | exact Hp].
  - intros (sd & supply & ids & s & Hsd & Hparse & Hids & Hread & Hs).
    assert (Hage : exists age w1, calculate_age_months self sd w = (Return age, w1)).
    { rewrite calculate_age_months_run, Hparse. eexists. eexists. reflexivity. }
    destruct Hage as (age & w1 & Hage).
    assert (Hdays : exists days w2,
               get_last_inspection_days self ids w1 = (Return days, w2)).
    { rewrite get_last_inspection_days_run.
      destruct (truthy ids) eqn:Ht; cbn [negb];
        [|eexists; eexists; reflexivity].
      destruct Hread as [Hf | (items & parsed & Hit & Hp)]; [congruence|].
      rewrite Hit, Hp.
      pose proof (map_exn_nonempty _ _ _ Hp (truthy_iterate_nonempty _ _ Ht Hit)).
      destruct parsed as [| first rest]; [congruence|].
      eexists. eexists. reflexivity. }
    destruct Hdays as (days & w2 & Hdays).
    eexists. eexists.
    exact (analyze_condition_run _ _ _ _ _ _ _ _ _ _ Hsd Hage Hids Hdays Hs).
Qed.

(** X6. The status is compared without regard to the case of its letters:
    two records that agree on the two date fields and whose statuses
    lower-case to the same string are analysed alike. *)
Theorem status_case_is_irrelevant self pd1 pd2 s1 s2 w :
  subscript pd1 "dateOfSupply" = subscript pd2 "dateOfSupply" ->
  subscript pd1 "inspectionDates" = subscript pd2 "inspectionDates" ->
  subscript pd1 "status" = inr (JStr s1) ->
  subscript pd2 "status" = inr (JStr s2) ->
  str_lower s1 = str_lower s2 ->
  analyze_condition self pd1 w = analyze_condition self pd2 w.
Proof.
  intros Hsd Hids H1 H2 Hlow.
  rewrite !analyze_condition_steps, Hsd, Hids, H1, H2.
  cbn [lower]. rewrite Hlow. reflexivity.
Qed.

Variables (self : self_t) (product_data : json) (w w' : world) (a : analysis).
Hypothesis returned : analyze_condition self product_data w = (Return a, w').

(** X7. The status factor is among the risk factors exactly when the status,
    lower-cased, is faulty, damaged or worn; and then the score is at
    least 50 and the condition is not GOOD. *)
Theorem status_factor_iff_status_is_bad :
  exists s,
    subscript product_data "status" = inr (JStr s) /\
    (In "Component status indicates issues" (risk_factors a)
     <-> status_bad (str_lower s) = true) /\
    (status_bad (str_lower s) = true ->
     50 <= risk_score a /\ condition a <> "GOOD").
Proof.
  destruct (analyze_condition_inv _ _ _ _ _ returned)
    as (sd & ids & s & w1 & _ & _ & _ & _ & Hs & Ha).
  exists s. split; [exact Hs|].
  set (age := age_months a) in *. set (days := days_since_inspection a) in *.
  assert (Hf : risk_factors a = snd (rules age days (str_lower s)))
    by (rewrite Ha; reflexivity).
  assert (Hscore : risk_score a = Z.min (fst (rules age days (str_lower s))) 100)
    by (rewrite Ha; reflexivity).
  assert (Hc : condition a = fst (condition_level (fst (rules age days (str_lower s)))))
    by (rewrite Ha; reflexivity).
  rewrite Hf, Hscore, Hc, rules_split. cbn [fst snd].
  destruct (age_rule_shape age 0 []) as (p1 & t1 & _ & E1 & B1 & _).
  destruct (inspection_rule_shape days 0 []) as (p2 & t2 & _ & E2 & B2 & _).
  destruct (rule_texts_incl age days (str_lower s)) as (I1 & I2 & _).
  rewrite E1, E2 in *. cbn [fst snd] in *.
  unfold status_rule, status_bad.
  destruct (str_in (str_lower s) ["faulty"; "damaged"; "worn"]); cbn [fst snd].
  - split.
    + split; [reflexivity|]. intros _.
      apply in_or_app. right. apply in_or_app. right. left. reflexivity.
    + intros _. split; [lia|].
      match goal with
      | |- fst (condition_level ?x) <> _ =>
          destruct (condition_level_cases x) as [[_ ->] | [[_ ->] | [? _]]];
            [discriminate | discriminate | lia]
      end.
  - split; [|discriminate].
    split; [|discriminate]. rewrite app_nil_r. intros Hin.
    apply in_app_or in Hin. destruct Hin as [Hin | Hin].
    + apply I1 in Hin. cbn in Hin. intuition discriminate.
    + apply I2 in Hin. cbn in Hin. intuition discriminate.
Qed.

End Readable.

Section ReadableWitnesses.
Import Py PyDatetime Effects RailwayAnalyzer Scoring Notions Samples.

(** A record in ASCII that lacks a status: it is not readable, and the
    scorer does not return. *)
Lemma scorer_returns_exactly_on_readable_records_witness :
  dates_in_ascii no_status /\
  ~ (exists a w',
       analyze_condition analyzer no_status (world_at noon JNull) = (Return a, w')).
Proof.
  assert (Hascii : dates_in_ascii no_status)
    by (unfold dates_in_ascii; cbn; repeat constructor).
  split; [exact Hascii|].
  intros Hreturns.
  apply (scorer_returns_exactly_on_readable_records
           analyzer no_status (world_at noon JNull) Hascii) in Hreturns.
  destruct Hreturns as (sd & supply & ids & s & _ & _ & _ & _ & Hs).
  discriminate Hs.
Defined.

Lemma status_case_is_irrelevant_witness :
  analyze_condition analyzer status_capitalised (world_at noon JNull)
  = analyze_condition analyzer status_upper_case (world_at noon JNull).
Proof.
  apply (status_case_is_irrelevant analyzer status_capitalised status_upper_case
           "Damaged" "DAMAGED"); reflexivity.
Defined.

Lemma status_factor_iff_status_is_bad_witness :
  exists a w',
    analyze_condition analyzer status_upper_case (world_at noon JNull)
      = (Return a, w') /\
    In "Component status indicates issues" (risk_factors a) /\
    50 <= risk_score a.
Proof.
  eexists. eexists. split; [lazy; reflexivity|].
  destruct (status_factor_iff_status_is_bad
              analyzer status_upper_case (world_at noon JNull) _ _ eq_refl)
    as (s & Hs & Hiff & Hbad).
  assert (s = "DAMAGED") by (vm_compute in Hs; congruence). subst s.
  split; [apply Hiff; reflexivity | apply Hbad; reflexivity].
Defined.

End ReadableWitnesses.

(* ===================================================================== *)
(** * The condition as a function of age, recency and status             *)
(* ===================================================================== *)

Section DecisionTable.
Import Py PyDatetime Effects RailwayAnalyzer Scoring Notions Samples Run.

(** The sum of the three rules, bucket by bucket. *)
Lemma rules_points age days lowered :
  fst (rules age days lowered)
  = (if age >? 48 then 40 else if age >? 36 then 25 else if age >? 24 then 10 else 0)
    + (if day_gt days 180 then 35 else if day_gt days 90 then 20 else 0)
    + (if status_bad lowered then 50 else 0).
Proof.
  rewrite rules_split. cbn [fst].
  unfold age_rule, inspection_rule, status_rule, status_bad.
  destruct (age >? 48); [|destruct (age >? 36); [|destruct (age >? 24)]];
    (destruct (day_gt days 180); [|destruct (day_gt days 90)]);
    destruct (str_in lowered _); reflexivity.
Qed.

Lemma day_gt_le d1 d2 k k' :
  day_le d1 d2 -> k' <= k -> day_gt d1 k = true -> day_gt d2 k' = true.
Proof.
  destruct d1 as [n1 |], d2 as [n2 |]; cbn; intros Hle Hk H; try reflexivity.
  - destruct (Z.gtb_spec n1 k); [|discriminate].
    destruct (Z.gtb_spec n2 k'); [reflexivity | lia].
  - destruct Hle.
Qed.

Lemma day_le_refl d : day_le d d.
Proof. destruct d; cbn; [lia | exact I]. Qed.

Ltac thresholds age days :=
  pose proof (day_gt_le days days 180 90 (day_le_refl days) ltac:(lia));
  destruct (Z.gtb_spec age 48); destruct (Z.gtb_spec age 36);
  destruct (Z.gtb_spec age 24); try lia;
  destruct (day_gt days 180); destruct (day_gt days 90);
  try (exfalso; intuition discriminate).

Section OneRun.

Variables (self : self_t) (product_data : json) (w w' : world) (a : analysis).
Hypothesis returned : analyze_condition self product_data w = (Return a, w').

Lemma returned_level :
  exists s,
    subscript product_data "status" = inr (JStr s) /\
    risk_score a
    = Z.min (fst (rules (age_months a) (days_since_inspection a) (str_lower s))) 100 /\
    condition a
    = fst (condition_level
             (fst (rules (age_months a) (days_since_inspection a) (str_lower s)))) /\
    risk_factors a
    = snd (rules (age_months a) (days_since_inspection a) (str_lower s)).
Proof.
  destruct (analyze_condition_inv _ _ _ _ _ returned)
    as (sd & ids & s & w1 & _ & _ & _ & _ & Hs & Ha).
  exists s. split; [exact Hs|]. repeat split; rewrite Ha; reflexivity.
Qed.

(** X8. The condition, read off the age, the day count and the status. With
    a bad status it is CRITICAL as soon as the age is above 36 months or
    the inspection more than 90 days old, and WARNING otherwise. Without
    one it is CRITICAL only above 48 months and 180 days together. *)
Theorem condition_decision_table :
  exists s,
    subscript product_data "status" = inr (JStr s) /\
    let age := age_months a in
    let late k := day_gt (days_since_inspection a) k = true in
    (status_bad (str_lower s) = true ->
       (condition a = "CRITICAL" <-> 36 < age \/ late 90) /\
       (condition a = "WARNING" <-> age <= 36 /\ ~ late 90)) /\
    (status_bad (str_lower s) = false ->
       (condition a = "CRITICAL" <-> 48 < age /\ late 180) /\
       (condition a = "WARNING" <->
          (48 < age /\ ~ late 180) \/
          (36 < age <= 48 /\ late 90) \/
          (24 < age <= 36 /\ late 180)) /\
       (condition a = "GOOD" <->
          age <= 24 \/ (24 < age <= 36 /\ ~ late 180) \/
          (36 < age <= 48 /\ ~ late 90))).
Proof.
  destruct returned_level as (s & Hs & _ & Hc & _).
  exists s. split; [exact Hs|]. cbv zeta.
  rewrite Hc, rules_points.
  set (age := age_months a). set (days := days_since_inspection a).
  split; intros Hbad; rewrite Hbad; thresholds age days;
    match goal with
    | |- context [condition_level ?x] =>
        destruct (condition_level_cases x) as [[? ->] | [[? ->] | [? ->]]]
    end; try lia;
    repeat split; intros; try discriminate; try lia;
    intuition (try lia; try discriminate).
Qed.

(** X9. The recommendations given to an analysis of the scorer follow its
    risk factors: the inspection one is given exactly when an inspection
    factor was found, the replacement planning one exactly when the age
    factor is one of the two above 36 months. There are two to five of
    them, at most three for a GOOD condition. *)
Theorem recommendations_follow_the_risk_factors :
  let recs := generate_recommendations a product_data in
  (In ("üîé Schedule inspection (last: "
         ++ str_of_days (days_since_inspection a) ++ " days ago)")%string recs
   <-> In "Overdue for inspection (>6 months)" (risk_factors a)
       \/ In "Due for inspection soon" (risk_factors a)) /\
  (In "üìà Consider proactive replacement planning" recs
   <-> In "Component exceeding recommended service life" (risk_factors a)
       \/ In "Component approaching end of service life" (risk_factors a)) /\
  (2 <= List.length recs <= 5)%nat /\
  (condition a = "GOOD" -> (List.length recs <= 3)%nat).
Proof.
  destruct returned_level as (s & Hs & _ & Hc & Hf).
  cbv zeta. rewrite recommendations_additive, Hf, Hc, rules_points, rules_split.
  cbn [snd].
  set (age := age_months a). set (days := days_since_inspection a).
  unfold age_rule, inspection_rule, status_rule, inspection_texts, age_texts.
  fold (status_bad (str_lower s)).
  assert (Hgt : forall x y, (x >? y) = true <-> y < x)
    by (intros x y; destruct (Z.gtb_spec x y); split; intros; try lia;
        try discriminate; reflexivity).
  destruct (age >? 48) eqn:E48; [|destruct (age >? 36) eqn:E36;
                                   [|destruct (age >? 24) eqn:E24]];
    try (assert ((age >? 36) = true) as -> by (apply Hgt; apply Hgt in E48; lia));
    (destruct (day_gt days 180) eqn:D180;
       [assert (day_gt days 90 = true) as ->
          by exact (day_gt_le days days 180 90 (day_le_refl days) ltac:(lia) D180)
       |destruct (day_gt days 90) eqn:D90]);
    destruct (status_bad (str_lower s));
    match goal with
    | |- context [condition_level ?x] =>
        let c := eval vm_compute in (fst (condition_level x)) in
        change (fst (condition_level x)) with c
    end;
    cbn [level_texts String.eqb Ascii.eqb Bool.eqb app List.length snd fst In];
    (split; [split; intros H; intuition (try discriminate; auto)|]);
    (split; [split; intros H; intuition (try discriminate; auto)|]);
    (split; [lia|]); intros H; try discriminate H; lia.
Qed.

End OneRun.

Section TwoRuns.

Variables (self1 self2 : self_t) (pd1 pd2 : json) (w1 w1' w2 w2' : world).
Variables (a1 a2 : analysis) (s1 s2 : string).
Hypothesis returned1 : analyze_condition self1 pd1 w1 = (Return a1, w1').
Hypothesis returned2 : analyze_condition self2 pd2 w2 = (Return a2, w2').
Hypothesis status1 : subscript pd1 "status" = inr (JStr s1).
Hypothesis status2 : subscript pd2 "status" = inr (JStr s2).

(** X10. The score never goes down with age, with the time since the last
    inspection, or with a status turning bad; nor does the condition get
    milder. *)
Theorem risk_score_is_monotone :
  age_months a1 <= age_months a2 ->
  day_le (days_since_inspection a1) (days_since_inspection a2) ->
  (status_bad (str_lower s1) = true -> status_bad (str_lower s2) = true) ->
  risk_score a1 <= risk_score a2 /\
  (condition a1 = "CRITICAL" -> condition a2 = "CRITICAL") /\
  (condition a2 = "GOOD" -> condition a1 = "GOOD").
Proof.
  intros Hage Hdays Hbad.
  destruct (returned_level _ _ _ _ _ returned1) as (t1 & Ht1 & Hr1 & Hc1 & _).
  destruct (returned_level _ _ _ _ _ returned2) as (t2 & Ht2 & Hr2 & Hc2 & _).
  rewrite status1 in Ht1. inversion Ht1; subst t1.
  rewrite status2 in Ht2. inversion Ht2; subst t2.
  rewrite Hr1, Hr2, Hc1, Hc2, !rules_points.
  set (x1 := age_months a1) in *. set (x2 := age_months a2) in *.
  set (d1 := days_since_inspection a1) in *.
  set (d2 := days_since_inspection a2) in *.
  pose proof (day_gt_le d1 d2 180 180 Hdays ltac:(lia)) as H180.
  pose proof (day_gt_le d1 d2 90 90 Hdays ltac:(lia)) as H90.
  assert (Hraw :
    (if x1 >? 48 then 40 else if x1 >? 36 then 25 else if x1 >? 24 then 10 else 0)
    + (if day_gt d1 180 then 35 else if day_gt d1 90 then 20 else 0)
    + (if status_bad (str_lower s1) then 50 else 0)
    <= (if x2 >? 48 then 40 else if x2 >? 36 then 25 else if x2 >? 24 then 10 else 0)
       + (if day_gt d2 180 then 35 else if day_gt d2 90 then 20 else 0)
       + (if status_bad (str_lower s2) then 50 else 0)).
  { destruct (Z.gtb_spec x1 48), (Z.gtb_spec x1 36), (Z.gtb_spec x1 24),
      (Z.gtb_spec x2 48), (Z.gtb_spec x2 36), (Z.gtb_spec x2 24); try lia;
      destruct (day_gt d1 180), (day_gt d1 90), (day_gt d2 180), (day_gt d2 90);
      try (exfalso; intuition discriminate);
      destruct (status_bad (str_lower s1)), (status_bad (str_lower s2));
      try (exfalso; intuition discriminate); lia. }
  revert Hraw.
  generalize
    ((if x1 >? 48 then 40 else if x1 >? 36 then 25 else if x1 >? 24 then 10 else 0)
     + (if day_gt d1 180 then 35 else if day_gt d1 90 then 20 else 0)
     + (if status_bad (str_lower s1) then 50 else 0)).
  generalize
    ((if x2 >? 48 then 40 else if x2 >? 36 then 25 else if x2 >? 24 then 10 else 0)
     + (if day_gt d2 180 then 35 else if day_gt d2 90 then 20 else 0)
     + (if status_bad (str_lower s2) then 50 else 0)).
  intros r2 r1 Hraw.
  destruct (condition_level_cases r1) as [[? ->] | [[? ->] | [? ->]]];
    destruct (condition_level_cases r2) as [[? ->] | [[? ->] | [? ->]]];
    try lia; repeat split; intros; try discriminate; try reflexivity; lia.
Qed.

End TwoRuns.

End DecisionTable.

Section DecisionTableWitnesses.
Import Py PyDatetime Effects RailwayAnalyzer Scoring Notions Samples.

(** 83 months old, inspected 14 days ago, status good: WARNING. *)
Lemma condition_decision_table_witness :
  exists a w',
    analyze_condition analyzer at_forty (world_at noon JNull) = (Return a, w') /\
    condition a = "WARNING".
Proof.
  eexists. eexists. split; [lazy; reflexivity|].
  destruct (condition_decision_table
              analyzer at_forty (world_at noon JNull) _ _ eq_refl)
    as (s & Hs & _ & Hgood).
  assert (s = "good") by (vm_compute in Hs; congruence). subst s.
  destruct (Hgood eq_refl) as (_ & Hwarning & _).
  apply Hwarning. left. vm_compute. split; [reflexivity | discriminate].
Defined.

(** 40 months old, inspected 100 days ago: both further
    recommendations. *)
Lemma recommendations_follow_the_risk_factors_witness :
  exists a w',
    analyze_condition analyzer aged_forty_months (world_at noon JNull)
      = (Return a, w') /\
    In "üîé Schedule inspection (last: 100 days ago)"
       (generate_recommendations a aged_forty_months) /\
    In "üìà Consider proactive replacement planning"
       (generate_recommendations a aged_forty_months).
Proof.
  eexists. eexists. split; [lazy; reflexivity|].
  destruct (recommendations_follow_the_risk_factors
              analyzer aged_forty_months (world_at noon JNull) _ _ eq_refl)
    as (Hinsp & Hage & _).
  split.
  - apply Hinsp. right. vm_compute. auto.
  - apply Hage. right. vm_compute. auto.
Defined.

(** The component of 83 months, never inspected and faulty, against the
    new one: 100 against 0. *)
Lemma risk_score_is_monotone_witness :
  exists a1 w1' a2 w2',
    analyze_condition analyzer brand_new (world_at noon JNull) = (Return a1, w1') /\
    analyze_condition analyzer worn_out (world_at noon JNull) = (Return a2, w2') /\
    risk_score a1 <= risk_score a2.
Proof.
  eexists. eexists. eexists. eexists.
  split; [lazy; reflexivity|]. split; [lazy; reflexivity|].
  apply (risk_score_is_monotone
           analyzer analyzer brand_new worn_out
           (world_at noon JNull) _ (world_at noon JNull) _ _ _ "good" "Faulty"
           eq_refl eq_refl eq_refl eq_refl).
  - vm_compute. discriminate.
  - exact I.
  - intros H. discriminate H.
Defined.

End DecisionTableWitnesses.

(* ===================================================================== *)
(** * The report of [analyze_product]                                     *)
(* ===================================================================== *)

Section Report.
Import Py PyDatetime Effects RailwayAnalyzer Scoring Notions Samples Run.

(** [analyze_product] after a fetch that returned something truthy. *)
Lemma analyze_product_steps self product_id w body w1 :
  fetch_product_data self product_id w = (Return body, w1) ->
  truthy body = true ->
  analyze_product self product_id w
  = match analyze_condition self body w1 with
    | (Raise e, w2) => (Raise e, w2)
    | (Return a, w2) =>
    match subscript body "productId" with
    | inl e => (Raise e, w2)
    | inr productId =>
    match subscript body "vendor" with
    | inl e => (Raise e, w2)
    | inr vendor =>
    match subscript body "batchNo" with
    | inl e => (Raise e, w2)
    | inr batchNo =>
    match subscript body "dateOfSupply" with
    | inl e => (Raise e, w2)
    | inr dateOfSupply =>
    match subscript body "warrantyPeriod" with
    | inl e => (Raise e, w2)
    | inr warrantyPeriod =>
    match subscript body "status" with
    | inl e => (Raise e, w2)
    | inr status =>
        (Return
           (SummaryReport
              (mk_product_info productId vendor batchNo dateOfSupply
                               warrantyPeriod status)
              (mk_ai_analysis
                 (color a ++ " " ++ condition a)%string
                 (str_of_int (risk_score a) ++ "/100")%string
                 (str_of_int (age_months a) ++ " months")%string
                 (str_of_days (days_since_inspection a) ++ " days ago")%string
                 (risk_factors a))
              (generate_recommendations a body)),
         w2)
    end end end end end end end.
Proof.
  intros Hfetch Htruthy. unfold analyze_product.
  rewrite (bind_run _ _ _ _ _ Hfetch), Htruthy. cbn [negb].
  unfold bind, lift, ret, raise.
  destruct (analyze_condition self body w1) as [[a | e] w2]; [|reflexivity].
  destruct (subscript body "productId"); [reflexivity|].
  destruct (subscript body "vendor"); [reflexivity|].
  destruct (subscript body "batchNo"); [reflexivity|].
  destruct (subscript body "dateOfSupply"); [reflexivity|].
  destruct (subscript body "warrantyPeriod"); [reflexivity|].
  destruct (subscript body "status"); reflexivity.
Qed.

(** X11. The error result is returned exactly when the fetch returned
    something falsy: [None] after an exception, but also an empty
    object, [null], an empty list or 0 sent by the service. Anything
    truthy is analysed, and then the result is a report or an
    exception, never the error result. *)
Theorem error_result_exactly_when_nothing_fetched self product_id w body w1 :
  fetch_product_data self product_id w = (Return body, w1) ->
  (truthy body = false ->
   analyze_product self product_id w
   = (Return (ErrorReport "Product not found or API error"), w1)) /\
  (truthy body = true ->
   forall error w', analyze_product self product_id w <> (Return (ErrorReport error), w')).
Proof.
  intros Hfetch. split; intros Htruthy.
  - unfold analyze_product. rewrite (bind_run _ _ _ _ _ Hfetch), Htruthy. reflexivity.
  - intros error w'. rewrite (analyze_product_steps _ _ _ _ _ Hfetch Htruthy).
    destruct (analyze_condition self body w1) as [[a | e] w2]; [|discriminate].
    destruct (subscript body "productId"); [discriminate|].
    destruct (subscript body "vendor"); [discriminate|].
    destruct (subscript body "batchNo"); [discriminate|].
    destruct (subscript body "dateOfSupply"); [discriminate|].
    destruct (subscript body "warrantyPeriod"); [discriminate|].
    destruct (subscript body "status"); discriminate.
Qed.

(** X12. Once the scorer has returned, the report needs the four descriptive
    fields: the first one the record lacks, in the order productId,
    vendor, batchNo, warrantyPeriod, raises its [KeyError]; with all four
    the report carries the six fields of the record as they are, the
    analysis formatted, and the recommendations. *)
Theorem report_of_a_scored_record self product_id w body w1 a w2 :
  fetch_product_data self product_id w = (Return body, w1) ->
  analyze_condition self body w1 = (Return a, w2) ->
  exists d,
    body = JDict d /\
    match first_missing d ["productId"; "vendor"; "batchNo"; "warrantyPeriod"] with
    | Some key => analyze_product self product_id w = (Raise (KeyError key), w2)
    | None =>
        exists productId vendor batchNo dateOfSupply warrantyPeriod status,
          dict_get d "productId" = Some productId /\
          dict_get d "vendor" = Some vendor /\
          dict_get d "batchNo" = Some batchNo /\
          dict_get d "dateOfSupply" = Some dateOfSupply /\
          dict_get d "warrantyPeriod" = Some warrantyPeriod /\
          dict_get d "status" = Some status /\
          analyze_product self product_id w
          = (Return
               (SummaryReport
                  (mk_product_info productId vendor batchNo dateOfSupply
                                   warrantyPeriod status)
                  (mk_ai_analysis
                     (color a ++ " " ++ condition a)%string
                     (str_of_int (risk_score a) ++ "/100")%string
                     (str_of_int (age_months a) ++ " months")%string
                     (str_of_days (days_since_inspection a) ++ " days ago")%string
                     (risk_factors a))
                  (generate_recommendations a body)),
             w2)
    end.
Proof.
  intros Hfetch Hrun.
  destruct (analyze_condition_inv _ _ _ _ _ Hrun)
    as (sd & ids & s & w0 & Hsd & _ & _ & _ & Hs & _).
  destruct body as [| | | | | | d]; try discriminate Hsd.
  exists d. split; [reflexivity|].
  assert (Htruthy : truthy (JDict d) = true).
  { destruct d; [discriminate Hsd | reflexivity]. }
  rewrite (analyze_product_steps _ _ _ _ _ Hfetch Htruthy), Hrun.
  cbn [subscript] in *.
  destruct (dict_get d "dateOfSupply") as [vsd |]; [|discriminate Hsd].
  destruct (dict_get d "status") as [vs |]; [|discriminate Hs].
  cbn [first_missing].
  destruct (dict_get d "productId") as [vp |]; [|reflexivity].
  destruct (dict_get d "vendor") as [vv |]; [|reflexivity].
  destruct (dict_get d "batchNo") as [vb |]; [|reflexivity].
  destruct (dict_get d "warrantyPeriod") as [vw |]; [|reflexivity].
  exists vp, vv, vb, vsd, vw, vs. repeat split; reflexivity.
Qed.

End Report.

Section ReportWitnesses.
Import Py PyDatetime Effects RailwayAnalyzer Scoring Notions Samples.

(** The service answers with an empty object: the error result, and
    nothing printed. *)
Lemma error_result_exactly_when_nothing_fetched_witness :
  analyze_product analyzer "1234" (world_at noon (JDict []))
  = (Return (ErrorReport "Product not found or API error"),
     world_at noon (JDict [])).
Proof.
  apply (error_result_exactly_when_nothing_fetched
           analyzer "1234" (world_at noon (JDict [])) (JDict [])
           (world_at noon (JDict [])));
    reflexivity.
Defined.

(** A record without a vendor: the analysis is made, then the report
    fails on the vendor. *)
Lemma report_of_a_scored_record_witness :
  analyze_product analyzer "1234" (world_at noon no_vendor)
  = (Raise (KeyError "vendor"), tick 2 (world_at noon no_vendor)).
Proof.
  destruct (report_of_a_scored_record
              analyzer "1234" (world_at noon no_vendor) no_vendor
              (world_at noon no_vendor)
              {| condition := "GOOD"; risk_score := 0;
                 color := snd (condition_level 0); risk_factors := [];
                 age_months := 1; days_since_inspection := DayInt 14 |}
              (tick 2 (world_at noon no_vendor)) eq_refl eq_refl)
    as (d & Hd & H).
  inversion Hd; subst d. exact H.
Defined.

End ReportWitnesses.

(* ===================================================================== *)
(** * What [print_report] prints                                          *)
(* ===================================================================== *)

Section Printing.
Import Py PyDatetime Effects RailwayAnalyzer Scoring Notions Samples Run.

Variable str : json -> string.

Lemma printed_printed l1 l2 w :
  printed l2 (printed l1 w) = printed (l1 ++ l2) w.
Proof. unfold printed. cbn. rewrite app_assoc. reflexivity. Qed.


Lemma print_run line w : print line w = (Return tt, printed [line] w).
Proof. reflexivity. Qed.



(** X13. When the fetch fails, [print_report] prints two lines, the one of
    the fetch and the one of the error result, and returns. *)
Theorem print_report_on_fetch_failure self product_id w text :
  backend w (api_base_url self ++ "/api/products/" ++ product_id)%string
    = RequestException text ->
  print_report str self product_id w
  = (Return tt,
     printed [("Error fetching data for Product ID " ++ product_id ++ ": "
               ++ text)%string;
              "‚ùå Product not found or API error"] w).
Proof.
  intros Hfail. unfold print_report.
  assert (Hfetch := fetch_product_data_exception self product_id w text Hfail).
  assert (Hrun : analyze_product self product_id w
                 = (Return (ErrorReport "Product not found or API error"),
                    printed [("Error fetching data for Product ID " ++ product_id
                              ++ ": " ++ text)%string] w)).
  { unfold analyze_product. rewrite (bind_run _ _ _ _ _ Hfetch). reflexivity. }
  rewrite (bind_run _ _ _ _ _ Hrun), print_run, printed_printed. reflexivity.
Qed.


End Printing.

Section PrintingWitnesses.
Import Py PyDatetime Effects RailwayAnalyzer Scoring Notions Samples.

Lemma print_report_on_fetch_failure_witness :
  exists w',
    print_report sample_str analyzer "12" (world_at noon aged_forty_months)
      = (Return tt, w') /\
    stdout w'
    = ["Error fetching data for Product ID 12: 404 Client Error: Not Found";
       "‚ùå Product not found or API error"].
Proof.
  eexists. split.
  - apply (print_report_on_fetch_failure sample_str analyzer "12"
             (world_at noon aged_forty_months) "404 Client Error: Not Found").
    reflexivity.
  - reflexivity.
Defined.


End PrintingWitnesses.
